(** * gpt-cli-tool: a shallow embedding of [main.go]

    The program is one sequential pipeline: parse the flags, look up the
    parent process, build the pseudo command from the command line, ask the
    completion API for a real command, show it, read a confirmation and
    run the command through the invoking shell.

    The embedding keeps that shape.  Every effect of the Go code (printing,
    logging, the HTTP call, the child process, [os.Exit], a run-time panic) is
    an event or an outcome of a small trace monad; everything the operating
    environment supplies (arguments, environment variable, parent process,
    HTTP reply, standard input, the child's result) is a field of [Env]. *)

From Stdlib Require Import String Ascii List ZArith NArith QArith Bool Lia.
From Stdlib Require Import DecimalString.
Import ListNotations.
Open Scope list_scope.
Open Scope string_scope.

Local Set Warnings "-register-all".

(** The line feed, written [\n] in the Go source. *)
Definition nl : string := String "010" EmptyString.

(** ** Package [strings] *)

Module strings.

(** [strings.Join(elems, sep)]. *)
Definition Join (elems : list string) (sep : string) : string :=
  String.concat sep elems.

(** [strings.Replace(s, old, "", 1)] for a non-empty [old]: the first
    occurrence of [old] is cut out of [s]; [s] is returned as it is when
    [old] does not occur. *)
Fixpoint Remove1 (s old : string) : string :=
  if prefix old s
  then substring (String.length old) (String.length s - String.length old) s
  else match s with
       | EmptyString => EmptyString
       | String c s' => String c (Remove1 s' old)
       end.

(** [strings.Contains(s, sub)] (used in statements only). *)
Fixpoint Contains (s sub : string) : bool :=
  if prefix sub s then true
  else match s with
       | EmptyString => false
       | String _ s' => Contains s' sub
       end.

End strings.

(** ** Values of type [interface{}]

    The request structure first: the fields the program sets ([Model],
    [Messages], [MaxTokens]); every other field of the Go struct keeps its
    zero value and is dropped from the JSON text by [omitempty]. *)

Record ChatCompletionMessage := {
  Role : string;
  Content : string
}.

Record ChatCompletionRequest := {
  Model : string;
  Messages : list ChatCompletionMessage;
  MaxTokens : Z
}.

(** What an [interface{}] holds in this program.  [json.Unmarshal] into a
    [map[string]interface{}] produces [nil], [bool], [float64], [string],
    [[]interface{}] and [map[string]interface{}].  A number of a JSON text
    is a finite [float64]: [VNum q] is the one of exact value [q], with the
    positive zero for [q] zero, and [VNegZero] is the negative zero, which
    the text [-0] decodes to.  [VErr] is an [error] (by its [Error()] text)
    and [VData] the byte slice [json.Marshal] returns (by the value it
    encodes); both only occur as operands of the printing functions. *)
Inductive any : Type :=
| VNil
| VBool (b : bool)
| VNum (q : Q)
| VStr (s : string)
| VArr (l : list any)
| VMap (m : list (string * any))
| VErr (e : string)
| VData (p : ChatCompletionRequest)
| VNegZero.

(** A decoded JSON object, in document order. *)
Definition object := list (string * any).

(** [m[k]] with the comma-ok form: the decoder stores the members of an
    object one after the other, so the last binding of a repeated key is
    the one found. *)
Fixpoint lookup (m : object) (k : string) : option any :=
  match m with
  | [] => None
  | (k', v) :: m' =>
      match lookup m' k with
      | Some v' => Some v'
      | None => if String.eqb k' k then Some v else None
      end
  end.

(** [m[k]]: the zero value [nil] for an absent key (and for a nil map). *)
Definition index (m : object) (k : string) : any :=
  match lookup m k with
  | Some v => v
  | None => VNil
  end.

(** ** Package [fmt], printing

    The fragment of the formatting verbs the program meets with scalar
    operands.  [None] marks a format or operand outside this fragment. *)

Module fmt.

Definition digits (n : Z) : string :=
  NilZero.string_of_uint (N.to_uint (Z.to_N n)).

(** [%.1f] of a [float64] other than the negative zero: the exact value
    rounded to one decimal, ties to even, with a minus sign for a negative
    value, also when it rounds to zero. *)
Definition f1 (q : Q) : string :=
  let n := Qnum q in
  let d := Zpos (Qden q) in
  let a := (Z.abs n * 10)%Z in
  let f := (a / d)%Z in
  let r := (a mod d)%Z in
  let t := if (2 * r <? d)%Z then f
           else if (d <? 2 * r)%Z then (f + 1)%Z
           else if Z.even f then f else (f + 1)%Z in
  (if (n <? 0)%Z then "-" else "") ++ digits (t / 10) ++ "." ++ digits (t mod 10).

(** [%s]. *)
Definition verb_s (a : any) : option string :=
  match a with
  | VStr s => Some s
  | VErr e => Some e
  | VNil => Some "%!s(<nil>)"
  | VBool true => Some "%!s(bool=true)"
  | VBool false => Some "%!s(bool=false)"
  | _ => None
  end.

(** [%.1f]. *)
Definition verb_f1 (a : any) : option string :=
  match a with
  | VNum q => Some (f1 q)
  | VNegZero => Some "-0.0"
  | VNil => Some "%!f(<nil>)"
  | _ => None
  end.

Definition cons_to (c : ascii) (r : option string) : option string :=
  option_map (String c) r.

Definition app_to (s : option string) (r : option string) : option string :=
  match s, r with
  | Some s, Some r => Some (s ++ r)
  | _, _ => None
  end.

(** [fmt.Sprintf(format, a...)] for formats made of plain text, [%%],
    [%s] and [%.1f], with one operand for each verb. *)
Fixpoint Sprintf (format : string) (a : list any) : option string :=
  match format with
  | EmptyString => match a with [] => Some EmptyString | _ => None end
  | String "%" (String "%" rest) => cons_to "%" (Sprintf rest a)
  | String "%" (String "s" rest) =>
      match a with
      | x :: a' => app_to (verb_s x) (Sprintf rest a')
      | [] => None
      end
  | String "%" (String "." (String "1" (String "f" rest))) =>
      match a with
      | x :: a' => app_to (verb_f1 x) (Sprintf rest a')
      | [] => None
      end
  | String "%" _ => None
  | String c rest => cons_to c (Sprintf rest a)
  end.

(** [%v] as [Println] applies it. *)
Definition verb_v (a : any) : option string :=
  match a with
  | VStr s => Some s
  | VErr e => Some e
  | VNil => Some "<nil>"
  | VBool true => Some "true"
  | VBool false => Some "false"
  | _ => None
  end.

(** [fmt.Sprintln(a...)]: operands separated by one space, newline at the
    end. *)
Fixpoint Sprintln (a : list any) : option string :=
  match a with
  | [] => Some nl
  | [x] => app_to (verb_v x) (Some nl)
  | x :: a' => app_to (verb_v x) (cons_to " " (Sprintln a'))
  end.

End fmt.

(** ** Package [fmt], scanning

    Standard input is a sequence of runes (code points).  [Scanln] with one
    string operand goes through [doScan]: [scanOne] assigns to the operand
    what [convertString] returns, which skips the leading space, fails at
    the end of the input, and otherwise takes the runes up to the next
    space.  A newline met while skipping and the end of the input are
    errors raised before the assignment, so the operand stays as it was.
    Only after the assignment does [doScan] look at the rest of the line;
    anything but space there makes [Scanln] return the error "expected
    newline", which [main] does not look at. *)

Definition rune := N.

Module scan.

(** The table [space] of [fmt/scan.go]. *)
Definition isSpace (r : rune) : bool :=
  ((9 <=? r) && (r <=? 13) || (r =? 32) || (r =? 133) || (r =? 160)
   || (r =? 5760) || (8192 <=? r) && (r <=? 8202)
   || (r =? 8232) || (r =? 8233) || (r =? 8239) || (r =? 8287)
   || (r =? 12288))%N.

Definition LF : rune := 10%N.
Definition CR : rune := 13%N.

(** [ss.SkipSpace] with [nlIsSpace = false]: [None] is the error
    "unexpected newline", otherwise the input left. *)
Fixpoint SkipSpace (input : list rune) : option (list rune) :=
  match input with
  | [] => Some []
  | r :: rest =>
      if ((r =? CR)%N && match rest with r' :: _ => (r' =? LF)%N | [] => false end)
      then SkipSpace rest
      else if (r =? LF)%N then None
      else if isSpace r then SkipSpace rest
      else Some input
  end.

(** [ss.token(true, notSpace)] after the leading space is gone: the
    runes up to the next space. *)
Fixpoint token (input : list rune) : list rune :=
  match input with
  | [] => []
  | r :: rest => if isSpace r then [] else r :: token rest
  end.

(** The value of the operand after [fmt.Scanln] when it was [old] before:
    [old] on "unexpected newline" and on the end of the input. *)
Definition Scanln (input : list rune) (old : list rune) : list rune :=
  match SkipSpace input with
  | None => old
  | Some [] => old
  | Some rest => token rest
  end.

(** [==] on the scanned text. *)
Fixpoint eqb (a b : list rune) : bool :=
  match a, b with
  | [], [] => true
  | x :: a', y :: b' => (x =? y)%N && eqb a' b'
  | _, _ => false
  end.

(** The runes of a text of ASCII characters. *)
Definition runes (s : string) : list rune :=
  map N_of_ascii (list_ascii_of_string s).

(** The line a reader types: the input up to the first line feed. *)
Fixpoint first_line (input : list rune) : list rune :=
  match input with
  | [] => []
  | r :: rest => if (r =? LF)%N then [] else r :: first_line rest
  end.

End scan.

(** ** Package [flag]

    The three flags [init] registers, and [flag.Parse] over them. *)

Record Flags := {
  verbose : bool;
  displayVersion : bool;
  model : string
}.

(** The defaults given in [init]. *)
Definition init : Flags :=
  {| verbose := false; displayVersion := false; model := "gpt-3.5-turbo" |}.

Module flag.

Inductive error :=
| BadSyntax (s : string)
| NotDefined (name : string)
| InvalidBool (value name : string)
| NeedsArg (name : string).

Inductive parsed :=
| Parsed (f : Flags) (rest : list string)
| Help
| Failed (e : error).

(** [strconv.ParseBool]. *)
Definition ParseBool (s : string) : option bool :=
  if existsb (String.eqb s) ["1"; "t"; "T"; "TRUE"; "true"; "True"] then Some true
  else if existsb (String.eqb s) ["0"; "f"; "F"; "FALSE"; "false"; "False"] then Some false
  else None.

(** The text before the first [=] and, when there is one, the text after. *)
Fixpoint cut (s : string) : string * option string :=
  match s with
  | EmptyString => (EmptyString, None)
  | String c s' =>
      if Ascii.eqb c "=" then (EmptyString, Some s')
      else let (n, v) := cut s' in (String c n, v)
  end.

(** [name=value]: the equals sign cannot be the first character. *)
Definition split (name : string) : string * option string :=
  match name with
  | EmptyString => (EmptyString, None)
  | String c s' => let (n, v) := cut s' in (String c n, v)
  end.

Definition set_bool (f : Flags) (name : string) (b : bool) : Flags :=
  if String.eqb name "v"
  then {| verbose := b; displayVersion := displayVersion f; model := model f |}
  else {| verbose := verbose f; displayVersion := b; model := model f |}.

Definition set_model (f : Flags) (m : string) : Flags :=
  {| verbose := verbose f; displayVersion := displayVersion f; model := m |}.

(** [FlagSet.Parse]: [parseOne] repeated until the first argument that
    is not a flag. *)
Fixpoint Parse (f : Flags) (args : list string) : parsed :=
  match args with
  | [] => Parsed f []
  | s :: rest =>
      match s with
      | String "-" (String c s2) =>
          if String.eqb s "--" then Parsed f rest
          else
            let name := if Ascii.eqb c "-" then s2 else String c s2 in
            match name with
            | EmptyString => Failed (BadSyntax s)
            | String c0 _ =>
                if Ascii.eqb c0 "-" || Ascii.eqb c0 "=" then Failed (BadSyntax s)
                else
                  let (name, value) := split name in
                  if String.eqb name "v" || String.eqb name "V" then
                    match value with
                    | Some v =>
                        match ParseBool v with
                        | Some b => Parse (set_bool f name b) rest
                        | None => Failed (InvalidBool v name)
                        end
                    | None => Parse (set_bool f name true) rest
                    end
                  else if String.eqb name "m" then
                    match value with
                    | Some v => Parse (set_model f v) rest
                    | None =>
                        match rest with
                        | v :: rest' => Parse (set_model f v) rest'
                        | [] => Failed (NeedsArg name)
                        end
                    end
                  else if String.eqb name "help" || String.eqb name "h" then Help
                  else Failed (NotDefined name)
            end
      | _ => Parsed f args
      end
  end.

End flag.

(** ** Effects *)

Inductive stream := Stdout | Stderr.

(** The request [makeCommand] hands to [client.Do], with the JSON body by the
    structure it encodes. *)
Record Request := {
  Method : string;
  URL : string;
  ContentType : string;
  Authorization : string;
  TimeoutSeconds : Z;
  Body : ChatCompletionRequest
}.

(** What [client.Do] and [io.ReadAll] give back.  A body is kept by the map
    [json.Unmarshal] decodes it to; a body that is no JSON object leaves the
    map nil, which reads like the empty one. *)
Inductive Response :=
| DoError (e : string)
| ReadError (e : string)
| Reply (result : object).

Inductive event :=
| Printf (w : stream) (format : string) (a : list any)
| Println (w : stream) (a : list any)
| Print (w : stream) (s : string)
| LogPrintf (format : string) (a : list any)
| Cyan (s : string)
| PrintDefaults
| FlagFail (e : flag.error)
| HttpDo (req : Request)
| Run (name : string) (arg : list string).

(** How the process ends: [os.Exit(code)], also for the return from [main]
    (code 0), or a run-time panic (the Go runtime prints the fault and
    exits with status 2). *)
Inductive outcome := Exit (code : Z) | Panic.

Definition status (o : outcome) : Z :=
  match o with
  | Exit code => code
  | Panic => 2
  end.

Inductive step (A : Type) :=
| Ret (a : A)
| Halt (o : outcome).

Arguments Ret {A} a.
Arguments Halt {A} o.

Definition trace := list event.

(** Computations: the events so far, then a value or the end of the
    process. *)
Definition M (A : Type) : Type := (trace * step A)%type.

Definition ret {A} (a : A) : M A := ([], Ret a).

Definition bind {A B} (m : M A) (k : A -> M B) : M B :=
  match m with
  | (t, Ret a) => ((t ++ fst (k a))%list, snd (k a))
  | (t, Halt o) => (t, Halt o)
  end.

Notation "x <- m ;; k" := (bind m (fun x => k))
  (at level 61, m at next level, right associativity).
Notation "m ;; k" := (bind m (fun _ => k))
  (at level 61, right associativity).

Definition emit (ev : event) : M unit := ([ev], Ret tt).
Definition os_Exit {A} (code : Z) : M A := ([], Halt (Exit code)).
Definition panic {A} : M A := ([], Halt Panic).

(** A whole run: the events and how the process ended. *)
Definition run (m : M unit) : trace * outcome :=
  match m with
  | (t, Ret _) => (t, Exit 0)
  | (t, Halt o) => (t, o)
  end.

(** ** The environment of one invocation *)

Record Env := {
  GOOS : string;                         (* runtime.GOOS *)
  Args : list string;                    (* os.Args[1:] *)
  thisCommand : string;                  (* filepath.Base(os.Args[0]) *)
  OPENAI_API_KEY : string;               (* os.Getenv: empty when not set *)
  FindProcess : option string;           (* the parent's executable name; None: a nil Process *)
  Do : Request -> Response;              (* the completion service *)
  Stdin : list rune;                     (* what the user types *)
  cmdRun : string -> list string -> option string  (* cmd.Run: nil or an error *)
}.

(** ** The program *)

Definition version : string := "0.1".

Definition apiKeyInfo : string :=
  "Goto https://platform.openai.com/account/api-keys to get your API key. Set the API key on CLI by 'export OPENAI_API_KEY=key' on Linux and MacOS or $Env:OPENAI_API_KEY = 'key' on Windows PowerShell"
  ++ nl ++ nl.

(** [debugPrintf]: the standard logger, only with [-v]. *)
Definition debugPrintf (f : Flags) (format : string) (a : list any) : M unit :=
  if verbose f then emit (LogPrintf format a) else ret tt.

(** Type assertions [x.(T)] in their one-result form panic on any other
    dynamic type, [nil] included; so does [s[0]] on an empty slice. *)
Definition assert_map (x : any) : M object :=
  match x with VMap m => ret m | _ => panic end.

Definition assert_slice (x : any) : M (list any) :=
  match x with VArr l => ret l | _ => panic end.

Definition assert_string (x : any) : M string :=
  match x with VStr s => ret s | _ => panic end.

Definition elem0 (l : list any) : M any :=
  match l with x :: _ => ret x | [] => panic end.

(** [parentProcess.Executable()]: a method call on a nil interface value
    panics. *)
Definition Executable (parentProcess : option string) : M string :=
  match parentProcess with Some name => ret name | None => panic end.

Definition url : string := "https://api.openai.com/v1/chat/completions".

(** The [Content] of the one message of the request. *)
Definition prompt (plattform commandShell pseudoCommand : string) : string :=
  "Convert this pseudo command into a real command that can be run on " ++
  plattform ++ " and " ++ commandShell ++
  " command shell. Note that the command might include misspelled, invalid or " ++
  "imagined arguments or even imagined program names. Try your best to convert it " ++
  "into an actual command that would do what the command seems to be intended to do." ++
  nl ++ nl ++ pseudoCommand ++ nl ++ nl ++ "Respond only with the command.".

Definition payload (f : Flags) (plattform commandShell pseudoCommand : string)
  : ChatCompletionRequest :=
  {| Model := model f;
     Messages := [ {| Role := "user";
                      Content := prompt plattform commandShell pseudoCommand |} ];
     MaxTokens := 1000 |}.

Definition request (apiKey : string) (data : ChatCompletionRequest) : Request :=
  {| Method := "POST";
     URL := url;
     ContentType := "application/json";
     Authorization := "Bearer " ++ apiKey;
     TimeoutSeconds := 10;
     Body := data |}.

(** [makeCommand], from [json.Unmarshal] to the [return]: the reading of
    the decoded reply. *)
Definition extract (f : Flags) (result : object) : M (string * object) :=
  match lookup result "error" with
  | Some x =>
      errorDetails <- assert_map x ;;
      emit (Printf Stdout "Error code %s: %s"
              [index errorDetails "code"; index errorDetails "message"]) ;;
      os_Exit 1
  | None =>
      debugPrintf f ("result:" ++ nl ++ "%#v" ++ nl) [VMap result] ;;
      choices <- assert_slice (index result "choices") ;;
      c0 <- elem0 choices ;;
      firstChoice <- assert_map c0 ;;
      message <- assert_map (index firstChoice "message") ;;
      content <- assert_string (index message "content") ;;
      usage <- assert_map (index result "usage") ;;
      debugPrintf f ("usage:" ++ nl ++ "%#v" ++ nl) [VMap usage] ;;
      ret (content, usage)
  end.

(** [makeCommand].  [json.Marshal] of the request structure and
    [http.NewRequest] with a constant method and URL do not fail, so their
    error branches are left out. *)
Definition makeCommand (f : Flags) (e : Env) (pseudoCommand commandShell : string)
  : M (string * object) :=
  let apiKey := OPENAI_API_KEY e in
  (if String.eqb apiKey ""
   then emit (Printf Stdout "Error: OPENAI_API_KEY is not set. %s" [VStr apiKeyInfo]) ;;
        os_Exit 1
   else ret tt) ;;
  debugPrintf f "OPENAI_API_KEY: %s" [VStr apiKey] ;;
  debugPrintf f "API URL: %s" [VStr url] ;;
  let plattform := GOOS e in
  debugPrintf f "plattform: %s" [VStr plattform] ;;
  let data := payload f plattform commandShell pseudoCommand in
  debugPrintf f (nl ++ "%s" ++ nl) [VData data] ;;
  let req := request apiKey data in
  emit (HttpDo req) ;;
  match Do e req with
  | DoError err =>
      emit (Println Stdout [VStr "Error:"; VErr err]) ;; os_Exit 1
  | ReadError err =>
      emit (Println Stdout [VStr "Error reading response:"; VErr err]) ;; os_Exit 1
  | Reply result => extract f result
  end.

(** The closure assigned to [flag.Usage]. *)
Definition Usage (e : Env) : M unit :=
  parentProcessName <- Executable (FindProcess e) ;;
  emit (Printf Stderr
          ("Convert a pseudo command into a real command that can be run on " ++
           GOOS e ++ " and " ++ parentProcessName ++ " command shell." ++ nl ++ nl) []) ;;
  emit (Printf Stderr ("%s-%s by Herwig Grimm <herwig.grimm@gmail.com>" ++ nl ++ nl)
          [VStr (thisCommand e); VStr version]) ;;
  emit (Printf Stderr
          ("Usage: " ++ thisCommand e ++ " [-v] [-m <model>] <pseudo command>" ++ nl ++ nl) []) ;;
  emit (Printf Stderr ("Command requires API key from OpenAI. " ++ apiKeyInfo) []) ;;
  emit (Printf Stderr ("Options:" ++ nl) []) ;;
  emit PrintDefaults.

(** [main], the parent process lookup. *)
Definition shellContext (f : Flags) (e : Env) : M string :=
  parentProcessName <- Executable (FindProcess e) ;;
  debugPrintf f ("parent process name %s" ++ nl) [VStr parentProcessName] ;;
  ret parentProcessName.

(** [main], the pseudo command: all arguments joined, then [-v] and
    [-m <model>] cut out of the text. *)
Definition pseudoCommand (f : Flags) (args : list string) : string :=
  let pseudo := strings.Join args " " in
  let pseudo := if verbose f then strings.Remove1 pseudo "-v" else pseudo in
  strings.Remove1 pseudo ("-m " ++ model f).

(** [main], the two nested [switch] statements: the program and arguments of
    [exec.Command], or nothing for the [default] branches. *)
Definition launcher (goos parentProcessName command : string)
  : option (string * list string) :=
  if String.eqb goos "windows" then
    if String.eqb parentProcessName "powershell.exe"
    then Some ("powershell.exe", ["-c"; command])
    else if String.eqb parentProcessName "cmd.exe"
    then Some ("cmd.exe", ["/C"; command])
    else None
  else
    if String.eqb parentProcessName "zsh"
    then Some ("zsh", ["-c"; command])
    else if String.eqb parentProcessName "bash"
    then Some ("bash", ["-c"; command])
    else None.

Definition yes : list rune := scan.runes "y".

(** [main] from the display of the answer to the end. *)
Definition confirmAndRun (e : Env) (parentProcessName command : string) (usage : object)
  : M unit :=
  emit (Printf Stdout
          ("Looks insanely complicated? Don't panic. The answer is ..." ++ nl) []) ;;
  emit (Printf Stdout ("number of tokens used (total_tokens): %.1f" ++ nl)
          [index usage "total_tokens"]) ;;
  emit (Cyan command) ;;
  emit (Print Stdout "Run? (y/n) ") ;;
  let confirmation := scan.Scanln (Stdin e) [] in
  if scan.eqb confirmation yes then
    match launcher (GOOS e) parentProcessName command with
    | Some (name, arg) =>
        emit (Run name arg) ;;
        match cmdRun e name arg with
        | Some err => emit (Println Stdout [VStr "Error: "; VErr err])
        | None => ret tt
        end
    | None =>
        emit (Printf Stdout "Error: unsupported shell %s on %s"
                [VStr parentProcessName; VStr (GOOS e)]) ;;
        os_Exit 1
    end
  else ret tt.

(** [main] after [flag.Parse]. *)
Definition pipeline (f : Flags) (e : Env) : M unit :=
  (if displayVersion f
   then emit (Println Stdout [VStr ("Version: " ++ version)]) ;; os_Exit 0
   else ret tt) ;;
  parentProcessName <- shellContext f e ;;
  let pseudo := pseudoCommand f (Args e) in
  (if String.eqb pseudo ""
   then emit PrintDefaults ;;
        emit (Println Stdout
                [VStr ("Example: " ++ thisCommand e ++
                       " Find files larger than 42kB in the current directory")]) ;;
        os_Exit 1
   else ret tt) ;;
  r <- makeCommand f e pseudo parentProcessName ;;
  confirmAndRun e parentProcessName (fst r) (snd r).

(** [main].  A parse error prints the error and the usage and exits with
    status 2; [-h] and [-help] print the usage and exit with status 0. *)
Definition main (e : Env) : trace * outcome :=
  run match flag.Parse init (Args e) with
      | flag.Failed err => emit (FlagFail err) ;; Usage e ;; os_Exit 2
      | flag.Help => Usage e ;; os_Exit 0
      | flag.Parsed f _ => pipeline f e
      end.

(** ** Observations on a run *)

(** The child processes started, in order. *)
Definition spawned (t : trace) : list (string * list string) :=
  flat_map (fun ev => match ev with Run name arg => [(name, arg)] | _ => [] end) t.

(** The requests sent to the completion service. *)
Definition requests (t : trace) : list Request :=
  flat_map (fun ev => match ev with HttpDo req => [req] | _ => [] end) t.

(** What went to the log. *)
Definition logged (t : trace) : list (string * list any) :=
  flat_map (fun ev => match ev with LogPrintf format a => [(format, a)] | _ => [] end) t.

(** The text an output call writes, where the formatting fragment covers
    it.  For a log line it is the message after the date and time. *)
Definition text (ev : event) : option string :=
  match ev with
  | Printf _ format a => fmt.Sprintf format a
  | Println _ a => fmt.Sprintln a
  | Print _ s => Some s
  | LogPrintf format a => fmt.Sprintf format a
  | _ => None
  end.

(** The flags after [flag.Parse], when it succeeds. *)
Definition flags_of (e : Env) : option Flags :=
  match flag.Parse init (Args e) with
  | flag.Parsed f _ => Some f
  | _ => None
  end.

(** The positional arguments [flag.Args()] would return. *)
Definition positional (e : Env) : list string :=
  match flag.Parse init (Args e) with
  | flag.Parsed _ rest => rest
  | _ => []
  end.

(** The run gets as far as calling [makeCommand], with flags [f] and the
    shell name [shell]. *)
Definition translates (e : Env) (f : Flags) (shell : string) : Prop :=
  flags_of e = Some f /\
  displayVersion f = false /\
  FindProcess e = Some shell /\
  pseudoCommand f (Args e) <> "".

(** ... and [makeCommand] returns [command] and [usage]. *)
Definition answered (e : Env) (f : Flags) (shell command : string) (usage : object) : Prop :=
  translates e f shell /\
  snd (makeCommand f e (pseudoCommand f (Args e)) shell) = Ret (command, usage).

(** The four lines [main] prints between the answer and the confirmation. *)
Definition display (command : string) (usage : object) : trace :=
  [ Printf Stdout ("Looks insanely complicated? Don't panic. The answer is ..." ++ nl) [];
    Printf Stdout ("number of tokens used (total_tokens): %.1f" ++ nl)
      [index usage "total_tokens"];
    Cyan command;
    Print Stdout "Run? (y/n) " ].

(** The dispatch table as the specification draws it: a row holds whether
    the platform is windows, the shell name, which is also the program
    started, and the flag that precedes the command. *)
Definition spec_table : list (bool * string * string) :=
  [ (true, "powershell.exe", "-c");
    (true, "cmd.exe", "/C");
    (false, "zsh", "-c");
    (false, "bash", "-c") ].

Definition spec_row (platform shellName : string) : option (string * string) :=
  match find (fun row => Bool.eqb (fst (fst row)) (String.eqb platform "windows")
                         && String.eqb (snd (fst row)) shellName) spec_table with
  | Some row => Some (snd (fst row), snd row)
  | None => None
  end.

(** The events up to the call of [makeCommand]. *)
Definition prelude (f : Flags) (shell : string) : trace :=
  if verbose f then [LogPrintf ("parent process name %s" ++ nl) [VStr shell]] else [].

(** What [makeCommand] logs and sends once it has a credential. *)
Definition announce (f : Flags) (e : Env) (pseudo shell : string) : trace :=
  ((if verbose f
    then [ LogPrintf "OPENAI_API_KEY: %s" [VStr (OPENAI_API_KEY e)];
           LogPrintf "API URL: %s" [VStr url];
           LogPrintf "plattform: %s" [VStr (GOOS e)];
           LogPrintf (nl ++ "%s" ++ nl) [VData (payload f (GOOS e) shell pseudo)] ]
    else [])
   ++ [HttpDo (request (OPENAI_API_KEY e) (payload f (GOOS e) shell pseudo))])%list.

(** The shape the reading of a reply relies on. *)
Definition shaped (result : object) (content : string) (usage : object) : Prop :=
  exists c rest m,
    index result "choices" = VArr (VMap c :: rest) /\
    index c "message" = VMap m /\
    index m "content" = VStr content /\
    index result "usage" = VMap usage.

(** A computation none of whose events satisfies [p], whatever it returns. *)
Definition silent (p : event -> bool) {A} (m : M A) : Prop :=
  forallb (fun ev => negb (p ev)) (fst m) = true.

Definition is_Run (ev : event) : bool :=
  match ev with Run _ _ => true | _ => false end.

Definition is_HttpDo (ev : event) : bool :=
  match ev with HttpDo _ => true | _ => false end.

Definition is_LogPrintf (ev : event) : bool :=
  match ev with LogPrintf _ _ => true | _ => false end.

(** A trace without its log lines. *)
Definition unlogged (t : trace) : trace :=
  filter (fun ev => negb (is_LogPrintf ev)) t.

(** The flags with [verbose] switched off. *)
Definition quiet (f : Flags) : Flags :=
  {| verbose := false; displayVersion := displayVersion f; model := model f |}.

(** What the closure assigned to [flag.Usage] writes when the parent
    process is found. *)
Definition usage_lines (e : Env) (shell : string) : trace :=
  [ Printf Stderr
      ("Convert a pseudo command into a real command that can be run on " ++
       GOOS e ++ " and " ++ shell ++ " command shell." ++ nl ++ nl) [];
    Printf Stderr ("%s-%s by Herwig Grimm <herwig.grimm@gmail.com>" ++ nl ++ nl)
      [VStr (thisCommand e); VStr version];
    Printf Stderr
      ("Usage: " ++ thisCommand e ++ " [-v] [-m <model>] <pseudo command>" ++ nl ++ nl) [];
    Printf Stderr ("Command requires API key from OpenAI. " ++ apiKeyInfo) [];
    Printf Stderr ("Options:" ++ nl) [];
    PrintDefaults ].

(** What [main] writes for an empty pseudo command. *)
Definition example_lines (e : Env) : trace :=
  [ PrintDefaults;
    Println Stdout
      [VStr ("Example: " ++ thisCommand e ++
             " Find files larger than 42kB in the current directory")] ].

(** An argument [flag.Parse] takes for a flag: two characters or more, the
    first a dash. *)
Definition dashed (s : string) : bool :=
  match s with
  | String "-" (String _ _) => true
  | _ => false
  end.

(** A text without an equals sign. *)
Fixpoint no_equals (s : string) : bool :=
  match s with
  | EmptyString => true
  | String c s' => negb (Ascii.eqb c "=") && no_equals s'
  end.

(** Two computations that end alike and whose events differ by log lines
    only, the second having none. *)
Definition same_but_logs {A} (m m' : M A) : Prop :=
  snd m = snd m' /\ unlogged (fst m) = fst m'.

(** ** The scenario of the specification *)

Definition scenario_reply : object :=
  [ ("choices",
     VArr [VMap [("message",
                  VMap [("role", VStr "assistant");
                        ("content", VStr "find . -type f -size +42k")])]]);
    ("usage", VMap [("total_tokens", VNum 100)]) ].

Definition scenario_env (goos shell : string) (args : list string) (key : string)
    (reply : Response) (input : string) (child : option string) : Env :=
  {| GOOS := goos;
     Args := args;
     thisCommand := "gpt-cli-tool";
     OPENAI_API_KEY := key;
     FindProcess := Some shell;
     Do := fun _ => reply;
     Stdin := scan.runes input;
     cmdRun := fun _ _ => child |}.

Definition scenario_args : list string :=
  ["Find files larger than 42kB in the current directory"].

(** ** The trace monad *)

Lemma bind_Ret A B (t : trace) (a : A) (k : A -> M B) :
  bind (t, Ret a) k = ((t ++ fst (k a))%list, snd (k a)).
Proof. reflexivity. Qed.

Lemma bind_Halt A B (t : trace) (o : outcome) (k : A -> M B) :
  bind (t, Halt o) k = (t, Halt o).
Proof. reflexivity. Qed.

Lemma spawned_app t1 t2 : spawned (t1 ++ t2)%list = (spawned t1 ++ spawned t2)%list.
Proof. apply flat_map_app. Qed.

Lemma requests_app t1 t2 : requests (t1 ++ t2)%list = (requests t1 ++ requests t2)%list.
Proof. apply flat_map_app. Qed.

Lemma logged_app t1 t2 : logged (t1 ++ t2)%list = (logged t1 ++ logged t2)%list.
Proof. apply flat_map_app. Qed.

Lemma silent_bind p A B (m : M A) (k : A -> M B) :
  silent p m -> (forall a, silent p (k a)) -> silent p (bind m k).
Proof.
  unfold silent. destruct m as [t [a | o]]; intros Hm Hk.
  - rewrite bind_Ret. simpl in *. rewrite forallb_app, Hm. apply Hk.
  - exact Hm.
Qed.

Lemma silent_run p (m : M unit) :
  silent p m -> forallb (fun ev => negb (p ev)) (fst (run m)) = true.
Proof. unfold silent. destruct m as [t [a | o]]; auto. Qed.

Lemma no_Run_spawned t :
  forallb (fun ev => negb (is_Run ev)) t = true -> spawned t = [].
Proof.
  induction t as [| ev t IH]; simpl; [reflexivity |].
  intros H. apply andb_prop in H. destruct H as [Hev Ht].
  rewrite (IH Ht). destruct ev; simpl in *; try reflexivity; discriminate.
Qed.

Lemma no_HttpDo_requests t :
  forallb (fun ev => negb (is_HttpDo ev)) t = true -> requests t = [].
Proof.
  induction t as [| ev t IH]; simpl; [reflexivity |].
  intros H. apply andb_prop in H. destruct H as [Hev Ht].
  rewrite (IH Ht). destruct ev; simpl in *; try reflexivity; discriminate.
Qed.

Lemma silent_debugPrintf p f format a :
  p (LogPrintf format a) = false -> silent p (debugPrintf f format a).
Proof.
  intros H. unfold silent, debugPrintf. destruct (verbose f); simpl; [rewrite H |]; reflexivity.
Qed.

(** Steps of a proof that a computation is silent. *)
Ltac silent_step :=
  match goal with
  | |- silent _ (bind _ _) => apply silent_bind; [| intros ?]
  | |- silent _ (debugPrintf _ _ _) => apply silent_debugPrintf; reflexivity
  | |- silent _ (if ?c then _ else _) => destruct c
  | |- silent _ (match ?x with _ => _ end) => destruct x
  | |- silent _ _ => reflexivity
  end.

(** ** From [main] to its stages *)

Lemma flags_of_Parse e f :
  flags_of e = Some f -> exists rest, flag.Parse init (Args e) = flag.Parsed f rest.
Proof.
  unfold flags_of. destruct (flag.Parse init (Args e)) as [f' rest | | err]; try discriminate.
  intros H. injection H as ->. now exists rest.
Qed.

(** A run that reaches [makeCommand] is the log line of the shell lookup,
    [makeCommand], then the confirmation stage. *)
Lemma main_translates e f shell :
  translates e f shell ->
  main e =
  run (debugPrintf f ("parent process name %s" ++ nl) [VStr shell] ;;
       r <- makeCommand f e (pseudoCommand f (Args e)) shell ;;
       confirmAndRun e shell (fst r) (snd r)).
Proof.
  intros (Hf & Hv & Hp & Hq).
  destruct (flags_of_Parse e f Hf) as [rest Hparse].
  unfold main. rewrite Hparse. unfold pipeline, shellContext. rewrite Hv, Hp.
  apply String.eqb_neq in Hq. rewrite Hq.
  unfold debugPrintf. destruct (verbose f); simpl;
    destruct (makeCommand f e (pseudoCommand f (Args e)) shell) as [t [[c u] | o]];
    simpl; try reflexivity;
    destruct (confirmAndRun e shell c u) as [t' [[] | o']]; reflexivity.
Qed.

(** A run whose translation succeeds: the confirmation stage decides how it
    ends. *)
Lemma main_answered e f shell command usage :
  answered e f shell command usage ->
  main e =
  ((prelude f shell ++ fst (makeCommand f e (pseudoCommand f (Args e)) shell)
    ++ fst (confirmAndRun e shell command usage))%list,
   snd (run (confirmAndRun e shell command usage))).
Proof.
  intros [Ht Hm]. rewrite (main_translates e f shell Ht).
  unfold prelude, debugPrintf.
  destruct (makeCommand f e (pseudoCommand f (Args e)) shell) as [t [[c u] | o]];
    simpl in Hm; [| discriminate].
  injection Hm as -> ->.
  destruct (verbose f); unfold bind, emit, ret; cbn [fst snd];
    destruct (confirmAndRun e shell command usage) as [t' [[] | o']]; reflexivity.
Qed.

(** A run whose translation ends the process. *)
Lemma main_halted e f shell o :
  translates e f shell ->
  snd (makeCommand f e (pseudoCommand f (Args e)) shell) = Halt o ->
  main e =
  ((prelude f shell ++ fst (makeCommand f e (pseudoCommand f (Args e)) shell))%list, o).
Proof.
  intros Ht Hm. rewrite (main_translates e f shell Ht).
  unfold prelude, debugPrintf.
  destruct (makeCommand f e (pseudoCommand f (Args e)) shell) as [t [[c u] | o']];
    simpl in Hm; [discriminate |].
  injection Hm as ->.
  destruct (verbose f); reflexivity.
Qed.

(** Nothing before the confirmation stage starts a process. *)
Lemma makeCommand_no_Run f e pseudo shell : silent is_Run (makeCommand f e pseudo shell).
Proof.
  unfold makeCommand, extract, assert_map, assert_slice, assert_string, elem0.
  repeat silent_step.
Qed.

Lemma Usage_no_Run e : silent is_Run (Usage e).
Proof. unfold Usage, Executable. repeat silent_step. Qed.

Lemma Usage_no_HttpDo e : silent is_HttpDo (Usage e).
Proof. unfold Usage, Executable. repeat silent_step. Qed.

(** The confirmation stage, by the word read and the row of the switch. *)
Lemma confirmAndRun_no e shell command usage :
  scan.eqb (scan.Scanln (Stdin e) []) yes = false ->
  confirmAndRun e shell command usage = (display command usage, Ret tt).
Proof. intros H. unfold confirmAndRun. rewrite H. reflexivity. Qed.

Lemma confirmAndRun_unsupported e shell command usage :
  scan.eqb (scan.Scanln (Stdin e) []) yes = true ->
  launcher (GOOS e) shell command = None ->
  confirmAndRun e shell command usage =
  ((display command usage ++
    [Printf Stdout "Error: unsupported shell %s on %s" [VStr shell; VStr (GOOS e)]])%list,
   Halt (Exit 1)).
Proof. intros H L. unfold confirmAndRun. rewrite H, L. reflexivity. Qed.

Lemma confirmAndRun_yes e shell command usage name arg :
  scan.eqb (scan.Scanln (Stdin e) []) yes = true ->
  launcher (GOOS e) shell command = Some (name, arg) ->
  confirmAndRun e shell command usage =
  ((display command usage ++ Run name arg ::
    match cmdRun e name arg with
    | Some err => [Println Stdout [VStr "Error: "; VErr err]]
    | None => []
    end)%list,
   Ret tt).
Proof.
  intros H L. unfold confirmAndRun. rewrite H, L.
  destruct (cmdRun e name arg); reflexivity.
Qed.

Lemma scan_eqb_eq a b : scan.eqb a b = true <-> a = b.
Proof.
  revert b. induction a as [| x a IH]; destruct b as [| y b]; simpl; split;
    try congruence; try discriminate.
  - intros H. apply andb_prop in H. destruct H as [Hx Hab].
    apply N.eqb_eq in Hx. apply IH in Hab. congruence.
  - intros H. injection H as -> ->. rewrite N.eqb_refl. now apply IH.
Qed.

Lemma scan_eqb_neq a b : scan.eqb a b = false <-> a <> b.
Proof.
  split.
  - intros H E. apply scan_eqb_eq in E. congruence.
  - intros H. destruct (scan.eqb a b) eqn:E; [| reflexivity].
    apply scan_eqb_eq in E. contradiction.
Qed.

Lemma main_answered_spawned e f shell command usage :
  answered e f shell command usage ->
  spawned (fst (main e)) = spawned (fst (confirmAndRun e shell command usage)).
Proof.
  intros H. rewrite (main_answered e f shell command usage H). cbn [fst].
  rewrite !spawned_app.
  rewrite (no_Run_spawned _ (makeCommand_no_Run f e (pseudoCommand f (Args e)) shell)).
  unfold prelude. destruct (verbose f); reflexivity.
Qed.

(** No run starts a process unless the word read at the prompt is [y]. *)
Lemma main_declined_no_Run e :
  scan.Scanln (Stdin e) [] <> yes -> spawned (fst (main e)) = [].
Proof.
  intros H. apply scan_eqb_neq in H.
  apply no_Run_spawned. unfold main. apply silent_run.
  destruct (flag.Parse init (Args e)) as [f rest | | err].
  - unfold pipeline, shellContext, Executable.
    repeat (first [ apply makeCommand_no_Run
                  | rewrite (confirmAndRun_no e _ _ _ H); reflexivity
                  | silent_step ]).
  - apply silent_bind; [apply Usage_no_Run | intros; reflexivity].
  - apply silent_bind; [reflexivity | intros].
    apply silent_bind; [apply Usage_no_Run | intros; reflexivity].
Qed.

(** ** Reading the confirmation *)

Lemma first_line_nil input :
  scan.first_line input = [] -> input = [] \/ exists rest, input = scan.LF :: rest.
Proof.
  destruct input as [| r rest]; [now left |]. simpl.
  destruct (N.eqb_spec r scan.LF) as [-> | _]; [| discriminate].
  right. now exists rest.
Qed.

Lemma first_line_cons input r l :
  scan.first_line input = r :: l ->
  exists rest, input = r :: rest /\ scan.first_line rest = l.
Proof.
  destruct input as [| r' rest]; [discriminate |]. simpl.
  destruct (r' =? scan.LF)%N; [discriminate |].
  intros H. injection H as -> <-. now exists rest.
Qed.

(** A line made of the single word [w], without any space in it, is read
    as [w]. *)
Lemma Scanln_single_word input r w :
  scan.first_line input = r :: w ->
  forallb (fun x => negb (scan.isSpace x)) (r :: w) = true ->
  scan.Scanln input [] = r :: w.
Proof.
  intros Hl Hw. apply first_line_cons in Hl. destruct Hl as (rest & -> & Hl).
  simpl in Hw. apply andb_prop in Hw. destruct Hw as [Hr Hw].
  apply negb_true_iff in Hr.
  assert (Htok : forall l inp, scan.first_line inp = l ->
            forallb (fun x => negb (scan.isSpace x)) l = true -> scan.token inp = l).
  { induction l as [| x l IH]; intros inp Hi Hs.
    - apply first_line_nil in Hi. destruct Hi as [-> | [rest' ->]]; reflexivity.
    - apply first_line_cons in Hi. destruct Hi as (rest' & -> & Hi).
      simpl in Hs. apply andb_prop in Hs. destruct Hs as [Hx Hs].
      apply negb_true_iff in Hx. simpl. rewrite Hx. f_equal. now apply IH. }
  unfold scan.Scanln. simpl.
  assert (Hcr : (r =? scan.CR)%N = false).
  { destruct (N.eqb_spec r scan.CR) as [-> | _]; [discriminate | reflexivity]. }
  assert (Hlf : (r =? scan.LF)%N = false).
  { destruct (N.eqb_spec r scan.LF) as [-> | _]; [discriminate | reflexivity]. }
  rewrite Hcr, Hlf, Hr. simpl. rewrite Hr. f_equal. now apply Htok.
Qed.

(** An empty line, and the end of the input, leave the variable empty. *)
Lemma Scanln_empty_line input :
  scan.first_line input = [] -> scan.Scanln input [] = [].
Proof.
  intros H. apply first_line_nil in H. destruct H as [-> | [rest ->]]; reflexivity.
Qed.

(** The lines the specification names as refusals are refusals. *)
Lemma Scanln_refusals input :
  In (scan.first_line input) [scan.runes ""; scan.runes "Y"; scan.runes "yes"] ->
  scan.Scanln input [] <> yes.
Proof.
  simpl. intros [H | [H | [H | []]]]; symmetry in H.
  - rewrite (Scanln_empty_line _ H). discriminate.
  - rewrite (Scanln_single_word _ _ _ H); [discriminate | reflexivity].
  - rewrite (Scanln_single_word _ _ _ H); [discriminate | reflexivity].
Qed.

(** The first word is what counts: space before it and text after it on
    the line do not matter, nor does a carriage return before the line
    feed. *)
Lemma Scanln_first_word :
  scan.Scanln (scan.runes (" y" ++ nl)) [] = yes /\
  scan.Scanln (scan.runes ("y no" ++ nl)) [] = yes /\
  scan.Scanln (scan.runes "y") [] = yes /\
  scan.Scanln (scan.runes "y" ++ [scan.CR; scan.LF])%list [] = yes /\
  scan.Scanln (scan.runes ("n" ++ nl ++ "y" ++ nl)) [] = scan.runes "n".
Proof. repeat split. Qed.

(** The line [y] confirms. *)
Lemma Scanln_y input :
  scan.first_line input = yes -> scan.Scanln input [] = yes.
Proof. intros H. apply (Scanln_single_word _ _ _ H). reflexivity. Qed.

(** ** The confirmation gate (C1) *)

(** C1, as the claim words it, fails: the line [y no] is not the literal
    [y], yet [Scanln] stores its first word, [y], and the command runs. *)
Lemma confirmation_line_counterexample :
  let e := scenario_env "darwin" "zsh" scenario_args "sk-test"
             (Reply scenario_reply) ("y no" ++ nl) None in
  scan.first_line (Stdin e) = scan.runes "y no" /\
  scan.first_line (Stdin e) <> yes /\
  spawned (fst (main e)) = [("zsh", ["-c"; "find . -type f -size +42k"])] /\
  snd (main e) = Exit 0.
Proof. vm_compute. repeat split; discriminate. Qed.

(** C1 (amended): what gates the execution is the word [fmt.Scanln] reads,
    the first space-delimited word of the confirmation line.  Whenever
    that word is not exactly [y] (so in particular for an empty line, for
    [Y] and for [yes]) no run starts a child process, and a run that had an
    answer to confirm ends with status 0 right after the prompt. *)
Theorem confirmation_gate (e : Env) :
  scan.Scanln (Stdin e) [] <> yes \/
  In (scan.first_line (Stdin e)) [scan.runes ""; scan.runes "Y"; scan.runes "yes"] ->
  spawned (fst (main e)) = [] /\
  forall f shell command usage,
    answered e f shell command usage ->
    snd (main e) = Exit 0 /\
    fst (main e) =
      (prelude f shell ++ fst (makeCommand f e (pseudoCommand f (Args e)) shell)
       ++ display command usage)%list.
Proof.
  intros H.
  assert (Hw : scan.Scanln (Stdin e) [] <> yes).
  { destruct H as [H | H]; [exact H | now apply Scanln_refusals]. }
  split; [now apply main_declined_no_Run |].
  intros f shell command usage Ha.
  rewrite (main_answered e f shell command usage Ha).
  apply scan_eqb_neq in Hw. rewrite (confirmAndRun_no e _ _ _ Hw). split; reflexivity.
Qed.

Lemma confirmation_gate_witness :
  let e := scenario_env "darwin" "zsh" scenario_args "sk-test"
             (Reply scenario_reply) ("yes" ++ nl) None in
  spawned (fst (main e)) = [] /\ snd (main e) = Exit 0.
Proof.
  intros e.
  assert (H : scan.Scanln (Stdin e) [] <> yes) by (vm_compute; discriminate).
  destruct (confirmation_gate e (or_introl H)) as [Hs Ha].
  split; [exact Hs |].
  refine (proj1 (Ha init "zsh" "find . -type f -size +42k"
                   [("total_tokens", VNum 100)] _)).
  repeat split; try reflexivity. vm_compute. discriminate.
Defined.

(** ** Shell dispatch (C2) *)

Lemma append_empty_r (s : string) : s ++ "" = s.
Proof. induction s as [| c s IH]; simpl; [| rewrite IH]; reflexivity. Qed.

(** The nested switches of [main] are the table of the specification. *)
Lemma launcher_spec_row goos shell command :
  launcher goos shell command =
  match spec_row goos shell with
  | Some (prog, flg) => Some (prog, [flg; command])
  | None => None
  end.
Proof.
  unfold launcher, spec_row, spec_table. cbv [find fst snd].
  rewrite (String.eqb_sym "powershell.exe" shell), (String.eqb_sym "cmd.exe" shell),
    (String.eqb_sym "zsh" shell), (String.eqb_sym "bash" shell).
  destruct (String.eqb goos "windows"); cbv [Bool.eqb andb].
  - destruct (String.eqb shell "powershell.exe"); [reflexivity |].
    destruct (String.eqb shell "cmd.exe"); reflexivity.
  - destruct (String.eqb shell "zsh"); [reflexivity |].
    destruct (String.eqb shell "bash"); reflexivity.
Qed.

Lemma unsupported_text shell goos :
  text (Printf Stdout "Error: unsupported shell %s on %s" [VStr shell; VStr goos]) =
  Some ("Error: unsupported shell " ++ shell ++ " on " ++ goos).
Proof. simpl. rewrite append_empty_r. reflexivity. Qed.

(** C2: on a confirmed run the child process is the one the table gives for
    the platform and the shell name, with the flag of the row and the
    command as the two arguments; off the table nothing is started, the
    last thing printed is the error naming the shell and the platform, and
    the exit status is 1. *)
Theorem dispatch_follows_table (e : Env) (f : Flags) (shell command : string) (usage : object) :
  answered e f shell command usage ->
  scan.Scanln (Stdin e) [] = yes ->
  match spec_row (GOOS e) shell with
  | Some (prog, flg) =>
      spawned (fst (main e)) = [(prog, [flg; command])]
  | None =>
      spawned (fst (main e)) = [] /\
      snd (main e) = Exit 1 /\
      (exists t,
         fst (main e) =
           (t ++ [Printf Stdout "Error: unsupported shell %s on %s"
                    [VStr shell; VStr (GOOS e)]])%list) /\
      text (Printf Stdout "Error: unsupported shell %s on %s"
              [VStr shell; VStr (GOOS e)]) =
        Some ("Error: unsupported shell " ++ shell ++ " on " ++ GOOS e)
  end.
Proof.
  intros Ha Hy. apply scan_eqb_eq in Hy.
  pose proof (launcher_spec_row (GOOS e) shell command) as HL.
  destruct (spec_row (GOOS e) shell) as [[prog flg] |].
  - rewrite (main_answered_spawned e f shell command usage Ha), (confirmAndRun_yes e _ _ _ _ _ Hy HL). cbn [fst].
    rewrite spawned_app. simpl. destruct (cmdRun e prog [flg; command]); reflexivity.
  - rewrite (main_answered_spawned e f shell command usage Ha), (main_answered e f shell command usage Ha),
      (confirmAndRun_unsupported e _ _ _ Hy HL).
    cbn [fst snd run]. repeat split.
    + eexists. rewrite !app_assoc. reflexivity.
    + apply unsupported_text.
Qed.

(** The rows of the table, one by one, and the pair of scenario 4. *)
Lemma dispatch_rows :
  spec_row "windows" "powershell.exe" = Some ("powershell.exe", "-c") /\
  spec_row "windows" "cmd.exe" = Some ("cmd.exe", "/C") /\
  spec_row "darwin" "zsh" = Some ("zsh", "-c") /\
  spec_row "linux" "bash" = Some ("bash", "-c") /\
  spec_row "linux" "fish" = None /\
  spec_row "windows" "bash" = None /\
  spec_row "linux" "powershell.exe" = None.
Proof. repeat split. Qed.

(** Off windows the platform name plays no part. *)
Lemma dispatch_other_platform goos shell :
  goos <> "windows" ->
  spec_row goos shell =
  if String.eqb shell "zsh" then Some ("zsh", "-c")
  else if String.eqb shell "bash" then Some ("bash", "-c")
  else None.
Proof.
  intros H. apply String.eqb_neq in H. unfold spec_row, spec_table. cbv [find fst snd].
  rewrite H. cbv [Bool.eqb andb].
  rewrite (String.eqb_sym "zsh" shell), (String.eqb_sym "bash" shell).
  destruct (String.eqb shell "zsh"); [reflexivity |].
  destruct (String.eqb shell "bash"); reflexivity.
Qed.

Lemma dispatch_follows_table_witness :
  let e := scenario_env "linux" "fish" scenario_args "sk-test"
             (Reply scenario_reply) ("y" ++ nl) None in
  spawned (fst (main e)) = [] /\
  snd (main e) = Exit 1 /\
  (exists t,
     fst (main e) =
       (t ++ [Printf Stdout "Error: unsupported shell %s on %s"
                [VStr "fish"; VStr "linux"]])%list) /\
  text (Printf Stdout "Error: unsupported shell %s on %s" [VStr "fish"; VStr "linux"]) =
    Some "Error: unsupported shell fish on linux".
Proof.
  intros e.
  refine (dispatch_follows_table e init "fish" "find . -type f -size +42k"
            [("total_tokens", VNum 100)] _ _).
  - repeat split; try reflexivity. vm_compute. discriminate.
  - reflexivity.
Defined.

(** ** A failing child (C7) *)

(** C7: on a confirmed run with a supported shell the tool ends with status
    0 whatever [cmd.Run] returns; when it returns an error (the child did
    not start, or exited with a status other than 0) the error is the last
    thing printed. *)
Theorem child_failure_is_reported_only (e : Env) (f : Flags) (shell command : string)
    (usage : object) (name : string) (arg : list string) :
  answered e f shell command usage ->
  scan.Scanln (Stdin e) [] = yes ->
  launcher (GOOS e) shell command = Some (name, arg) ->
  snd (main e) = Exit 0 /\
  spawned (fst (main e)) = [(name, arg)] /\
  forall err,
    cmdRun e name arg = Some err ->
    (exists t,
       fst (main e) =
         (t ++ [Run name arg; Println Stdout [VStr "Error: "; VErr err]])%list) /\
    text (Println Stdout [VStr "Error: "; VErr err]) = Some ("Error:  " ++ err ++ nl).
Proof.
  intros Ha Hy HL. apply scan_eqb_eq in Hy.
  rewrite (main_answered_spawned e f shell command usage Ha), (main_answered e f shell command usage Ha), (confirmAndRun_yes e _ _ _ _ _ Hy HL).
  cbn [fst snd run]. repeat split.
  - rewrite spawned_app. simpl. destruct (cmdRun e name arg); reflexivity.
  - rewrite H.
    exists (prelude f shell ++ fst (makeCommand f e (pseudoCommand f (Args e)) shell)
            ++ display command usage)%list.
    rewrite <- !app_assoc. reflexivity.
Qed.

Lemma child_failure_is_reported_only_witness :
  let e := scenario_env "linux" "bash" scenario_args "sk-test"
             (Reply scenario_reply) ("y" ++ nl) (Some "exit status 1") in
  snd (main e) = Exit 0 /\
  spawned (fst (main e)) = [("bash", ["-c"; "find . -type f -size +42k"])] /\
  forall err,
    cmdRun e "bash" ["-c"; "find . -type f -size +42k"] = Some err ->
    (exists t,
       fst (main e) =
         (t ++ [Run "bash" ["-c"; "find . -type f -size +42k"];
                Println Stdout [VStr "Error: "; VErr err]])%list) /\
    text (Println Stdout [VStr "Error: "; VErr err]) = Some ("Error:  " ++ err ++ nl).
Proof.
  intros e.
  refine (child_failure_is_reported_only e init "bash" "find . -type f -size +42k"
            [("total_tokens", VNum 100)] "bash" ["-c"; "find . -type f -size +42k"] _ _ _).
  - repeat split; try reflexivity. vm_compute. discriminate.
  - reflexivity.
  - reflexivity.
Defined.

(** ** The translation stage *)

Lemma makeCommand_no_key f e pseudo shell :
  OPENAI_API_KEY e = "" ->
  makeCommand f e pseudo shell =
  ([Printf Stdout "Error: OPENAI_API_KEY is not set. %s" [VStr apiKeyInfo]], Halt (Exit 1)).
Proof. intros H. unfold makeCommand. rewrite H. reflexivity. Qed.

Lemma makeCommand_Reply f e pseudo shell result :
  OPENAI_API_KEY e <> "" ->
  Do e (request (OPENAI_API_KEY e) (payload f (GOOS e) shell pseudo)) = Reply result ->
  makeCommand f e pseudo shell =
  ((announce f e pseudo shell ++ fst (extract f result))%list, snd (extract f result)).
Proof.
  intros Hk Hd. apply String.eqb_neq in Hk.
  unfold makeCommand, announce. rewrite Hk, Hd.
  unfold debugPrintf. destruct (extract f result) as [t r].
  destruct (verbose f); reflexivity.
Qed.

Lemma extract_shaped f result content usage :
  lookup result "error" = None ->
  shaped result content usage ->
  snd (extract f result) = Ret (content, usage).
Proof.
  intros He (c & rest & m & Hc & Hm & Hs & Hu).
  unfold extract, debugPrintf. rewrite He, Hc. simpl.
  destruct (verbose f); simpl; rewrite Hm; simpl; rewrite Hs; simpl; rewrite Hu; reflexivity.
Qed.

(** Run [extract] through its assertions, with the looked-up values among
    the hypotheses. *)
Ltac step_extract :=
  destruct (verbose _); simpl;
  repeat match goal with
         | H : index _ _ = _ |- _ => progress (rewrite H; simpl)
         end.

(** Any other reply without an [error] key runs into a failed type
    assertion or an index out of range. *)
Lemma extract_unshaped f result :
  lookup result "error" = None ->
  (exists content usage, shaped result content usage) \/
  snd (extract f result) = Halt Panic.
Proof.
  intros He. unfold extract, debugPrintf. rewrite He.
  destruct (index result "choices") as [| b | q | s | l | m | err | p |] eqn:Hc;
    try (right; step_extract; reflexivity).
  destruct l as [| c0 rest]; [right; step_extract; reflexivity |].
  destruct c0 as [| b | q | s | l | c | err | p |];
    try (right; step_extract; reflexivity).
  destruct (index c "message") as [| b | q | s | l | m | err | p |] eqn:Hm;
    try (right; step_extract; reflexivity).
  destruct (index m "content") as [| b | q | s | l | m' | err | p |] eqn:Hs;
    try (right; step_extract; reflexivity).
  destruct (index result "usage") as [| b | q | s' | l | u | err | p |] eqn:Hu;
    try (right; step_extract; reflexivity).
  left. exists s, u, c, rest, m. auto.
Qed.

(** The reading of a reply prints nothing on the way to a panic, and never
    sends a request or starts a process. *)
Lemma extract_panic_trace f result :
  lookup result "error" = None ->
  snd (extract f result) = Halt Panic ->
  fst (extract f result) =
  if verbose f then [LogPrintf ("result:" ++ nl ++ "%#v" ++ nl) [VMap result]] else [].
Proof.
  intros He. unfold extract, debugPrintf. rewrite He.
  destruct (index result "choices") as [| b | q | s | l | m | err | p |];
    try (step_extract; reflexivity).
  destruct l as [| c0 rest]; [step_extract; reflexivity |].
  destruct c0 as [| b | q | s | l | c | err | p |];
    try (step_extract; reflexivity).
  destruct (index c "message") as [| b | q | s | l | m | err | p |] eqn:Hm;
    try (step_extract; reflexivity).
  destruct (index m "content") as [| b | q | s | l | m' | err | p |] eqn:Hs;
    try (step_extract; reflexivity).
  destruct (index result "usage") as [| b | q | s' | l | u | err | p |] eqn:Hu;
    try (step_extract; reflexivity).
  step_extract; discriminate.
Qed.

(** A run whose reply has the shape reaches the confirmation stage. *)
Lemma answered_shaped e f shell result content usage :
  translates e f shell ->
  OPENAI_API_KEY e <> "" ->
  Do e (request (OPENAI_API_KEY e)
          (payload f (GOOS e) shell (pseudoCommand f (Args e)))) = Reply result ->
  lookup result "error" = None ->
  shaped result content usage ->
  answered e f shell content usage.
Proof.
  intros Ht Hk Hd He Hs. split; [exact Ht |].
  rewrite (makeCommand_Reply f e _ shell result Hk Hd). cbn [snd]. now apply extract_shaped.
Qed.

Lemma confirmAndRun_no_HttpDo e shell command usage :
  silent is_HttpDo (confirmAndRun e shell command usage).
Proof. unfold confirmAndRun. repeat silent_step. Qed.

(** ** Reading the reply (C3) *)

(** C3, as the claim words it, fails.  A reply [{}] is not answered with a
    decode error and status 1: the first type assertion panics.  And a
    reply whose [usage] has no [total_tokens] is not refused at all: the
    command is displayed, confirmed and run. *)
Lemma reply_shape_counterexample :
  let e1 := scenario_env "darwin" "zsh" scenario_args "sk-test" (Reply []) ("y" ++ nl) None in
  let e2 := scenario_env "darwin" "zsh" scenario_args "sk-test"
              (Reply [ ("choices",
                        VArr [VMap [("message", VMap [("content", VStr "ls")])]]);
                       ("usage", VMap []) ])
              ("y" ++ nl) None in
  (snd (main e1) = Panic /\ status (snd (main e1)) = 2%Z) /\
  (snd (main e2) = Exit 0 /\
   spawned (fst (main e2)) = [("zsh", ["-c"; "ls"])] /\
   In (Printf Stdout ("number of tokens used (total_tokens): %.1f" ++ nl) [VNil])
      (fst (main e2))).
Proof. vm_compute. repeat split. right. right. left. reflexivity. Qed.

(** C3 (amended): a reply without an [error] key whose [choices] is a
    non-empty array, its first element an object with an object [message]
    with a string [content], and whose [usage] is an object, yields exactly
    that content and that usage object.  Every other reply without an
    [error] key yields no decode error: the run ends in a run-time panic
    before anything is displayed, asked or run.  [total_tokens] is not
    looked at before the display, where an absent one is printed as the
    formatting mark for a nil operand. *)
Theorem reply_read_without_checks (e : Env) (f : Flags) (shell : string) (result : object) :
  translates e f shell ->
  OPENAI_API_KEY e <> "" ->
  Do e (request (OPENAI_API_KEY e)
          (payload f (GOOS e) shell (pseudoCommand f (Args e)))) = Reply result ->
  lookup result "error" = None ->
  (forall content usage,
     shaped result content usage ->
     snd (makeCommand f e (pseudoCommand f (Args e)) shell) = Ret (content, usage)) /\
  ((exists content usage, shaped result content usage) \/
   main e =
     ((prelude f shell ++ announce f e (pseudoCommand f (Args e)) shell ++
       if verbose f then [LogPrintf ("result:" ++ nl ++ "%#v" ++ nl) [VMap result]] else [])%list,
      Panic)) /\
  (forall usage,
     lookup usage "total_tokens" = None ->
     text (Printf Stdout ("number of tokens used (total_tokens): %.1f" ++ nl)
             [index usage "total_tokens"]) =
     Some ("number of tokens used (total_tokens): %!f(<nil>)" ++ nl)).
Proof.
  intros Ht Hk Hd He. split; [| split].
  - intros content usage Hs.
    exact (proj2 (answered_shaped e f shell result content usage Ht Hk Hd He Hs)).
  - destruct (extract_unshaped f result He) as [Hs | Hp]; [left; exact Hs | right].
    assert (Hm : snd (makeCommand f e (pseudoCommand f (Args e)) shell) = Halt Panic).
    { rewrite (makeCommand_Reply f e _ shell result Hk Hd). exact Hp. }
    rewrite (main_halted e f shell _ Ht Hm), (makeCommand_Reply f e _ shell result Hk Hd). cbn [fst].
    rewrite (extract_panic_trace f result He Hp). reflexivity.
  - intros usage Hu. unfold index. rewrite Hu. reflexivity.
Qed.

Lemma reply_read_without_checks_witness :
  let e := scenario_env "darwin" "zsh" scenario_args "sk-test"
             (Reply scenario_reply) ("y" ++ nl) None in
  snd (makeCommand init e (pseudoCommand init (Args e)) "zsh") =
  Ret ("find . -type f -size +42k", [("total_tokens", VNum 100)]).
Proof.
  intros e.
  assert (Ht : translates e init "zsh").
  { repeat split; try reflexivity. vm_compute. discriminate. }
  assert (Hk : OPENAI_API_KEY e <> "") by (vm_compute; discriminate).
  refine (proj1 (reply_read_without_checks e init "zsh" scenario_reply Ht Hk _ _) _ _ _).
  - reflexivity.
  - reflexivity.
  - exists [("message", VMap [("role", VStr "assistant");
                              ("content", VStr "find . -type f -size +42k")])],
      [], [("role", VStr "assistant"); ("content", VStr "find . -type f -size +42k")].
    repeat split.
Defined.

(** ** The credential (C4) *)

(** C4, as the claim words it, fails: without a credential, [-V] prints the
    version and exits with status 0, and an empty command line prints the
    flag defaults and an example, not the configuration error. *)
Lemma credential_absent_counterexample :
  let e1 := scenario_env "linux" "bash" ["-V"] "" (Reply scenario_reply) "" None in
  let e2 := scenario_env "linux" "bash" [] "" (Reply scenario_reply) "" None in
  OPENAI_API_KEY e1 = "" /\
  main e1 = ([Println Stdout [VStr "Version: 0.1"]], Exit 0) /\
  OPENAI_API_KEY e2 = "" /\
  main e2 =
    ([PrintDefaults;
      Println Stdout
        [VStr "Example: gpt-cli-tool Find files larger than 42kB in the current directory"]],
     Exit 1).
Proof. repeat split. Qed.

Lemma main_no_key_no_HttpDo e :
  OPENAI_API_KEY e = "" -> requests (fst (main e)) = [].
Proof.
  intros Hk. apply no_HttpDo_requests. unfold main. apply silent_run.
  destruct (flag.Parse init (Args e)) as [f rest | | err].
  - unfold pipeline, shellContext, Executable.
    repeat (first [ rewrite (makeCommand_no_key _ e _ _ Hk); reflexivity
                  | apply confirmAndRun_no_HttpDo
                  | silent_step ]).
  - apply silent_bind; [apply Usage_no_HttpDo | intros; reflexivity].
  - apply silent_bind; [reflexivity | intros].
    apply silent_bind; [apply Usage_no_HttpDo | intros; reflexivity].
Qed.

(** C4 (amended): without a credential no run sends a request; and a run
    that reaches the translation step (the flags parse, [-V] is not given,
    the parent process is found, the pseudo command is not empty) prints
    the configuration error with the remediation text and exits with
    status 1, with nothing before it but the log line of a verbose run. *)
Theorem missing_credential (e : Env) :
  OPENAI_API_KEY e = "" ->
  requests (fst (main e)) = [] /\
  (forall f shell,
     translates e f shell ->
     main e =
       ((prelude f shell ++
         [Printf Stdout "Error: OPENAI_API_KEY is not set. %s" [VStr apiKeyInfo]])%list,
        Exit 1)) /\
  text (Printf Stdout "Error: OPENAI_API_KEY is not set. %s" [VStr apiKeyInfo]) =
    Some ("Error: OPENAI_API_KEY is not set. " ++ apiKeyInfo) /\
  strings.Contains apiKeyInfo "https://platform.openai.com/account/api-keys" = true.
Proof.
  intros Hk. split; [now apply main_no_key_no_HttpDo |]. split; [| split; reflexivity].
  intros f shell Ht.
  assert (Hm : snd (makeCommand f e (pseudoCommand f (Args e)) shell) = Halt (Exit 1)).
  { rewrite (makeCommand_no_key f e _ shell Hk). reflexivity. }
  rewrite (main_halted e f shell _ Ht Hm), (makeCommand_no_key f e _ shell Hk). reflexivity.
Qed.

Lemma missing_credential_witness :
  let e := scenario_env "darwin" "zsh" scenario_args "" (Reply scenario_reply) "" None in
  requests (fst (main e)) = [] /\
  main e =
    ([Printf Stdout "Error: OPENAI_API_KEY is not set. %s" [VStr apiKeyInfo]], Exit 1).
Proof.
  intros e.
  destruct (missing_credential e eq_refl) as (Hr & Hm & _).
  split; [exact Hr |].
  apply (Hm init "zsh").
  repeat split; try reflexivity. vm_compute. discriminate.
Defined.

(** ** An error reply (C5) *)

(** A reply with an [error] object yields no command: the run prints
    [Error code %s: %s] with the [code] and [message] members of that
    object as operands, [nil] standing for an absent member, and exits with
    status 1; nothing is displayed for confirmation and nothing is run.
    Members that are strings are printed word for word. *)
Lemma oracle_error_ends_run (e : Env) (f : Flags) (shell : string)
    (result errorDetails : object) :
  translates e f shell ->
  OPENAI_API_KEY e <> "" ->
  Do e (request (OPENAI_API_KEY e)
          (payload f (GOOS e) shell (pseudoCommand f (Args e)))) = Reply result ->
  lookup result "error" = Some (VMap errorDetails) ->
  snd (makeCommand f e (pseudoCommand f (Args e)) shell) = Halt (Exit 1) /\
  main e =
    ((prelude f shell ++ announce f e (pseudoCommand f (Args e)) shell ++
      [Printf Stdout "Error code %s: %s"
         [ match lookup errorDetails "code" with Some x => x | None => VNil end;
           match lookup errorDetails "message" with Some x => x | None => VNil end ]])%list,
     Exit 1) /\
  spawned (fst (main e)) = [] /\
  (forall code message,
     lookup errorDetails "code" = Some (VStr code) ->
     lookup errorDetails "message" = Some (VStr message) ->
     main e =
       ((prelude f shell ++ announce f e (pseudoCommand f (Args e)) shell ++
         [Printf Stdout "Error code %s: %s" [VStr code; VStr message]])%list,
        Exit 1) /\
     text (Printf Stdout "Error code %s: %s" [VStr code; VStr message]) =
       Some ("Error code " ++ code ++ ": " ++ message)).
Proof.
  intros Ht Hk Hd He.
  assert (Hx : extract f result =
               ([Printf Stdout "Error code %s: %s"
                   [index errorDetails "code"; index errorDetails "message"]],
                Halt (Exit 1))).
  { unfold extract. rewrite He. reflexivity. }
  assert (Hm : snd (makeCommand f e (pseudoCommand f (Args e)) shell) = Halt (Exit 1)).
  { rewrite (makeCommand_Reply f e _ shell result Hk Hd), Hx. reflexivity. }
  assert (Hmain : main e =
    ((prelude f shell ++ announce f e (pseudoCommand f (Args e)) shell ++
      [Printf Stdout "Error code %s: %s"
         [index errorDetails "code"; index errorDetails "message"]])%list,
     Exit 1)).
  { rewrite (main_halted e f shell _ Ht Hm), (makeCommand_Reply f e _ shell result Hk Hd), Hx.
    reflexivity. }
  split; [exact Hm |]. split; [exact Hmain |]. split.
  - rewrite Hmain. cbn [fst]. rewrite !spawned_app.
    unfold prelude, announce. destruct (verbose f); reflexivity.
  - intros code message Hc Hmsg. split.
    + rewrite Hmain. unfold index. rewrite Hc, Hmsg. reflexivity.
    + simpl. rewrite append_empty_r. reflexivity.
Qed.

(** C5 (the code departs from the claim): the completion service sends
    [null] for the [code] of many of its errors.  The run then yields no
    command and exits with status 1, as the claim says, but what it prints
    for the code is the mark the formatter leaves for a [nil] operand under
    [%s], not the member as it came. *)
Theorem oracle_error_null_code_is_not_verbatim (e : Env) (f : Flags) (shell : string)
    (result errorDetails : object) (message : string) :
  translates e f shell ->
  OPENAI_API_KEY e <> "" ->
  Do e (request (OPENAI_API_KEY e)
          (payload f (GOOS e) shell (pseudoCommand f (Args e)))) = Reply result ->
  lookup result "error" = Some (VMap errorDetails) ->
  lookup errorDetails "code" = Some VNil ->
  lookup errorDetails "message" = Some (VStr message) ->
  main e =
    ((prelude f shell ++ announce f e (pseudoCommand f (Args e)) shell ++
      [Printf Stdout "Error code %s: %s" [VNil; VStr message]])%list,
     Exit 1) /\
  text (Printf Stdout "Error code %s: %s" [VNil; VStr message]) =
    Some ("Error code %!s(<nil>): " ++ message).
Proof.
  intros Ht Hk Hd He Hc Hmsg.
  destruct (oracle_error_ends_run e f shell result errorDetails Ht Hk Hd He)
    as (_ & Hmain & _).
  rewrite Hc, Hmsg in Hmain. split; [exact Hmain |].
  simpl. rewrite append_empty_r. reflexivity.
Qed.

Lemma oracle_error_null_code_is_not_verbatim_witness :
  let e := scenario_env "darwin" "zsh" scenario_args "sk-test"
             (Reply [("error",
                      VMap [("message", VStr "you must provide a model parameter");
                            ("type", VStr "invalid_request_error");
                            ("param", VNil);
                            ("code", VNil)])])
             ("y" ++ nl) None in
  main e =
    ([ HttpDo (request "sk-test"
                 (payload init "darwin" "zsh"
                    "Find files larger than 42kB in the current directory"));
       Printf Stdout "Error code %s: %s"
         [VNil; VStr "you must provide a model parameter"] ],
     Exit 1) /\
  text (Printf Stdout "Error code %s: %s"
          [VNil; VStr "you must provide a model parameter"]) =
    Some "Error code %!s(<nil>): you must provide a model parameter".
Proof.
  intros e.
  assert (Ht : translates e init "zsh").
  { repeat split; try reflexivity. vm_compute. discriminate. }
  assert (Hk : OPENAI_API_KEY e <> "") by (vm_compute; discriminate).
  exact (oracle_error_null_code_is_not_verbatim e init "zsh"
           [("error", VMap [("message", VStr "you must provide a model parameter");
                            ("type", VStr "invalid_request_error");
                            ("param", VNil);
                            ("code", VNil)])]
           [("message", VStr "you must provide a model parameter");
            ("type", VStr "invalid_request_error");
            ("param", VNil);
            ("code", VNil)]
           "you must provide a model parameter"
           Ht Hk eq_refl eq_refl eq_refl eq_refl).
Defined.

(** With strings for both members the line is word for word: the reply to
    a wrong key. *)
Lemma oracle_error_string_members :
  let e := scenario_env "darwin" "zsh" scenario_args "sk-bad"
             (Reply [("error", VMap [("message", VStr "Incorrect API key provided");
                                      ("type", VStr "invalid_request_error");
                                      ("param", VNil);
                                      ("code", VStr "invalid_api_key")])])
             ("y" ++ nl) None in
  snd (main e) = Exit 1 /\
  spawned (fst (main e)) = [] /\
  text (Printf Stdout "Error code %s: %s"
          [VStr "invalid_api_key"; VStr "Incorrect API key provided"]) =
    Some "Error code invalid_api_key: Incorrect API key provided".
Proof. vm_compute. repeat split. Qed.

(** ** The request (C6) *)

Lemma extract_no_HttpDo f result : silent is_HttpDo (extract f result).
Proof.
  unfold extract, assert_map, assert_slice, assert_string, elem0. repeat silent_step.
Qed.

(** With a credential, [makeCommand] starts with its log lines and the
    request, and sends nothing else. *)
Lemma makeCommand_keyed f e pseudo shell :
  OPENAI_API_KEY e <> "" ->
  exists t,
    fst (makeCommand f e pseudo shell) = (announce f e pseudo shell ++ t)%list /\
    forallb (fun ev => negb (is_HttpDo ev)) t = true.
Proof.
  intros Hk.
  destruct (Do e (request (OPENAI_API_KEY e) (payload f (GOOS e) shell pseudo)))
    as [err | err | result] eqn:Hd.
  - exists [Println Stdout [VStr "Error:"; VErr err]]. split; [| reflexivity].
    apply String.eqb_neq in Hk. unfold makeCommand, announce, debugPrintf.
    rewrite Hk, Hd. destruct (verbose f); reflexivity.
  - exists [Println Stdout [VStr "Error reading response:"; VErr err]]. split; [| reflexivity].
    apply String.eqb_neq in Hk. unfold makeCommand, announce, debugPrintf.
    rewrite Hk, Hd. destruct (verbose f); reflexivity.
  - exists (fst (extract f result)). split; [| apply extract_no_HttpDo].
    rewrite (makeCommand_Reply f e pseudo shell result Hk Hd). reflexivity.
Qed.

(** A run that reaches the translation step with a credential: the log
    line of the lookup, the log lines and the request of [makeCommand],
    and no other request after it. *)
Lemma main_prefix e f shell :
  translates e f shell ->
  OPENAI_API_KEY e <> "" ->
  exists t,
    fst (main e) =
      (prelude f shell ++ announce f e (pseudoCommand f (Args e)) shell ++ t)%list /\
    requests t = [].
Proof.
  intros Ht Hk.
  destruct (makeCommand_keyed f e (pseudoCommand f (Args e)) shell Hk) as (t1 & Hfst & Hq).
  destruct (snd (makeCommand f e (pseudoCommand f (Args e)) shell)) as [[c u] | o] eqn:Hm.
  - exists (t1 ++ fst (confirmAndRun e shell c u))%list. split.
    + rewrite (main_answered e f shell c u (conj Ht Hm)). cbn [fst].
      rewrite Hfst, <- !app_assoc. reflexivity.
    + rewrite requests_app, (no_HttpDo_requests _ Hq).
      apply no_HttpDo_requests, confirmAndRun_no_HttpDo.
  - exists t1. split.
    + rewrite (main_halted e f shell o Ht Hm). cbn [fst]. rewrite Hfst. reflexivity.
    + now apply no_HttpDo_requests.
Qed.

(** Exactly one request is sent, and its one message is the template with
    the platform, the shell name and the pseudo command of [main] in it. *)
Lemma request_follows_template e f shell :
  translates e f shell ->
  OPENAI_API_KEY e <> "" ->
  requests (fst (main e)) =
  [ {| Method := "POST";
       URL := "https://api.openai.com/v1/chat/completions";
       ContentType := "application/json";
       Authorization := "Bearer " ++ OPENAI_API_KEY e;
       TimeoutSeconds := 10;
       Body := {| Model := model f;
                  Messages :=
                    [ {| Role := "user";
                         Content := prompt (GOOS e) shell (pseudoCommand f (Args e)) |} ];
                  MaxTokens := 1000 |} |} ].
Proof.
  intros Ht Hk. destruct (main_prefix e f shell Ht Hk) as (t & -> & Hq).
  rewrite !requests_app, Hq. unfold prelude, announce.
  destruct (verbose f); reflexivity.
Qed.

(** Without flags on the command line, and without the text of the default
    model flag among the words, the pseudo command is the arguments
    joined. *)
Lemma Remove1_absent s old :
  strings.Contains s old = false -> strings.Remove1 s old = s.
Proof.
  induction s as [| c s IH]; cbn [strings.Contains strings.Remove1].
  - destruct (prefix old ""); [discriminate | reflexivity].
  - destruct (prefix old (String c s)); [discriminate |].
    intros H. now rewrite IH.
Qed.

Lemma pseudoCommand_plain args :
  strings.Contains (strings.Join args " ") "-m gpt-3.5-turbo" = false ->
  pseudoCommand init args = strings.Join args " ".
Proof. intros H. unfold pseudoCommand. simpl. now apply Remove1_absent. Qed.

(** C6 (the code departs from the claim): on the command line of the
    README, [-v -m gpt-4] before the quoted sentence, the one positional
    argument is the sentence, but the pseudo command sent has the two
    spaces that followed the flags still in front of it; and with the flag
    written [-m=gpt-4] the flag itself stays in the pseudo command. *)
Theorem pseudo_command_keeps_flag_residue :
  let e1 := scenario_env "linux" "bash"
              ["-v"; "-m"; "gpt-4"; "Find files larger than 42kB in the current directory"]
              "sk-test" (Reply scenario_reply) ("n" ++ nl) None in
  let f1 := {| verbose := true; displayVersion := false; model := "gpt-4" |} in
  let e2 := scenario_env "linux" "bash" ["-m=gpt-4"; "list"; "files"] "sk-test"
              (Reply scenario_reply) ("n" ++ nl) None in
  let f2 := {| verbose := false; displayVersion := false; model := "gpt-4" |} in
  (flags_of e1 = Some f1 /\
   positional e1 = ["Find files larger than 42kB in the current directory"] /\
   strings.Join (positional e1) " " =
     "Find files larger than 42kB in the current directory" /\
   pseudoCommand f1 (Args e1) =
     "  Find files larger than 42kB in the current directory" /\
   requests (fst (main e1)) =
     [request "sk-test"
        (payload f1 "linux" "bash"
           "  Find files larger than 42kB in the current directory")]) /\
  (flags_of e2 = Some f2 /\
   positional e2 = ["list"; "files"] /\
   strings.Join (positional e2) " " = "list files" /\
   pseudoCommand f2 (Args e2) = "-m=gpt-4 list files" /\
   requests (fst (main e2)) =
     [request "sk-test" (payload f2 "linux" "bash" "-m=gpt-4 list files")]).
Proof. vm_compute. repeat split. Qed.

(** ** The scenario, end to end (C8) *)

(** C8: on darwin under zsh, with the reply carrying the command
    [find . -type f -size +42k] and a token count of 100, and the line [y]
    typed at the prompt, the run prints the usage line with the count, as
    [100.0] under the [%.1f] of the format, shows the command as it is,
    and starts [zsh] with the two arguments [-c] and the whole command. *)
Theorem scenario_find_files (e : Env) (f : Flags) (result usage : object) :
  GOOS e = "darwin" ->
  translates e f "zsh" ->
  OPENAI_API_KEY e <> "" ->
  Do e (request (OPENAI_API_KEY e)
          (payload f (GOOS e) "zsh" (pseudoCommand f (Args e)))) = Reply result ->
  lookup result "error" = None ->
  shaped result "find . -type f -size +42k" usage ->
  index usage "total_tokens" = VNum 100 ->
  scan.first_line (Stdin e) = yes ->
  (exists t t',
     fst (main e) =
       (t ++
        [ Printf Stdout ("Looks insanely complicated? Don't panic. The answer is ..." ++ nl) [];
          Printf Stdout ("number of tokens used (total_tokens): %.1f" ++ nl) [VNum 100];
          Cyan "find . -type f -size +42k";
          Print Stdout "Run? (y/n) ";
          Run "zsh" ["-c"; "find . -type f -size +42k"] ] ++ t')%list) /\
  text (Printf Stdout ("number of tokens used (total_tokens): %.1f" ++ nl) [VNum 100]) =
    Some ("number of tokens used (total_tokens): 100.0" ++ nl) /\
  spawned (fst (main e)) = [("zsh", ["-c"; "find . -type f -size +42k"])].
Proof.
  intros Hg Ht Hk Hd He Hs Hu Hy.
  pose proof (answered_shaped e f "zsh" result _ usage Ht Hk Hd He Hs) as Ha.
  apply Scanln_y in Hy. apply scan_eqb_eq in Hy.
  assert (HL : launcher (GOOS e) "zsh" "find . -type f -size +42k" =
               Some ("zsh", ["-c"; "find . -type f -size +42k"])).
  { rewrite Hg. reflexivity. }
  split; [| split; [reflexivity |]].
  - rewrite (main_answered e f "zsh" _ usage Ha),
      (confirmAndRun_yes e "zsh" _ usage _ _ Hy HL). cbn [fst].
    unfold display. rewrite Hu.
    exists (prelude f "zsh" ++ fst (makeCommand f e (pseudoCommand f (Args e)) "zsh"))%list.
    eexists. rewrite <- !app_assoc. reflexivity.
  - rewrite (main_answered_spawned e f "zsh" _ usage Ha),
      (confirmAndRun_yes e "zsh" _ usage _ _ Hy HL). cbn [fst].
    rewrite spawned_app. simpl.
    destruct (cmdRun e "zsh" ["-c"; "find . -type f -size +42k"]); reflexivity.
Qed.

Lemma scenario_find_files_witness :
  let e := scenario_env "darwin" "zsh" scenario_args "sk-test"
             (Reply scenario_reply) ("y" ++ nl) None in
  main e =
    ([ HttpDo (request "sk-test"
                 (payload init "darwin" "zsh"
                    "Find files larger than 42kB in the current directory"));
       Printf Stdout ("Looks insanely complicated? Don't panic. The answer is ..." ++ nl) [];
       Printf Stdout ("number of tokens used (total_tokens): %.1f" ++ nl) [VNum 100];
       Cyan "find . -type f -size +42k";
       Print Stdout "Run? (y/n) ";
       Run "zsh" ["-c"; "find . -type f -size +42k"] ],
     Exit 0) /\
  text (Printf Stdout ("number of tokens used (total_tokens): %.1f" ++ nl) [VNum 100]) =
    Some ("number of tokens used (total_tokens): 100.0" ++ nl) /\
  spawned (fst (main e)) = [("zsh", ["-c"; "find . -type f -size +42k"])].
Proof.
  intros e. split; [reflexivity |].
  assert (Ht : translates e init "zsh").
  { repeat split; try reflexivity. vm_compute. discriminate. }
  assert (Hk : OPENAI_API_KEY e <> "") by (vm_compute; discriminate).
  assert (Hs : shaped scenario_reply "find . -type f -size +42k" [("total_tokens", VNum 100)]).
  { exists [("message", VMap [("role", VStr "assistant");
                                ("content", VStr "find . -type f -size +42k")])],
      [], [("role", VStr "assistant"); ("content", VStr "find . -type f -size +42k")].
    repeat split. }
  exact (proj2 (scenario_find_files e init scenario_reply [("total_tokens", VNum 100)]
                  eq_refl Ht Hk eq_refl eq_refl Hs eq_refl eq_refl)).
Defined.

(** ** The parent process lookup (C9) *)

(** C9 (the code departs from the claim): when the lookup of the parent
    process gives no process, [main] does not go on with an empty shell
    name: the call of [Executable] on the nil value panics, before anything
    is printed or sent. *)
Theorem parent_lookup_failure_panics (e : Env) (f : Flags) :
  flags_of e = Some f ->
  displayVersion f = false ->
  FindProcess e = None ->
  main e = ([], Panic) /\ status (snd (main e)) = 2%Z.
Proof.
  intros Hf Hv Hp.
  destruct (flags_of_Parse e f Hf) as [rest Hparse].
  assert (Hm : main e = ([], Panic)).
  { unfold main. rewrite Hparse. unfold pipeline, shellContext. rewrite Hv, Hp. reflexivity. }
  rewrite Hm. split; reflexivity.
Qed.

Lemma parent_lookup_failure_panics_witness :
  let e := {| GOOS := "linux";
              Args := scenario_args;
              thisCommand := "gpt-cli-tool";
              OPENAI_API_KEY := "sk-test";
              FindProcess := None;
              Do := fun _ => Reply scenario_reply;
              Stdin := scan.runes ("y" ++ nl);
              cmdRun := fun _ _ => None |} in
  main e = ([], Panic) /\ status (snd (main e)) = 2%Z.
Proof.
  intros e. apply (parent_lookup_failure_panics e init); reflexivity.
Defined.

(** The usage text of a parse error meets the same fault. *)
Lemma Usage_panics e :
  FindProcess e = None -> Usage e = ([], Halt Panic).
Proof. intros H. unfold Usage. rewrite H. reflexivity. Qed.

(** An empty name, on the other hand, is carried on to the confirmation
    stage and refused there. *)
Lemma empty_shell_name_is_unsupported goos command :
  launcher goos "" command = None.
Proof. unfold launcher. destruct (String.eqb goos "windows"); reflexivity. Qed.

(** ** The credential in the log (C10) *)

Lemma main_quiet_logs_nothing e f :
  flags_of e = Some f -> verbose f = false -> logged (fst (main e)) = [].
Proof.
  intros Hf Hv. destruct (flags_of_Parse e f Hf) as [rest Hparse].
  assert (H : forallb (fun ev => negb match ev with LogPrintf _ _ => true | _ => false end)
                (fst (main e)) = true).
  { unfold main. rewrite Hparse. apply silent_run.
    unfold pipeline, shellContext, Executable, makeCommand, extract, confirmAndRun,
      assert_map, assert_slice, assert_string, elem0, debugPrintf.
    rewrite Hv. repeat silent_step. }
  revert H. generalize (fst (main e)). intros t.
  induction t as [| ev t IH]; simpl; [reflexivity |].
  intros H. apply andb_prop in H. destruct H as [Hev Ht].
  rewrite (IH Ht). destruct ev; simpl in *; try reflexivity; discriminate.
Qed.

(** C10: a verbose run that reaches the translation step with a credential
    writes the credential to the log, word for word, before the request is
    sent; so the log of two such runs differs as soon as their credentials
    do.  Without [-v] nothing is logged at all. *)
Theorem verbose_run_logs_credential (e : Env) (f : Flags) (shell : string) :
  translates e f shell ->
  verbose f = true ->
  OPENAI_API_KEY e <> "" ->
  (exists t,
     fst (main e) =
       ([ LogPrintf ("parent process name %s" ++ nl) [VStr shell];
          LogPrintf "OPENAI_API_KEY: %s" [VStr (OPENAI_API_KEY e)];
          LogPrintf "API URL: %s" [VStr url];
          LogPrintf "plattform: %s" [VStr (GOOS e)];
          LogPrintf (nl ++ "%s" ++ nl)
            [VData (payload f (GOOS e) shell (pseudoCommand f (Args e)))];
          HttpDo (request (OPENAI_API_KEY e)
                    (payload f (GOOS e) shell (pseudoCommand f (Args e)))) ] ++ t)%list /\
     requests t = []) /\
  text (LogPrintf "OPENAI_API_KEY: %s" [VStr (OPENAI_API_KEY e)]) =
    Some ("OPENAI_API_KEY: " ++ OPENAI_API_KEY e) /\
  (forall e' f' shell',
     translates e' f' shell' ->
     verbose f' = true ->
     OPENAI_API_KEY e' <> "" ->
     OPENAI_API_KEY e' <> OPENAI_API_KEY e ->
     logged (fst (main e')) <> logged (fst (main e))) /\
  (forall e' f',
     flags_of e' = Some f' -> verbose f' = false -> logged (fst (main e')) = []).
Proof.
  intros Ht Hv Hk.
  assert (Hshape : forall e0 f0 shell0,
            translates e0 f0 shell0 -> verbose f0 = true -> OPENAI_API_KEY e0 <> "" ->
            exists t,
              fst (main e0) =
                ([ LogPrintf ("parent process name %s" ++ nl) [VStr shell0];
                   LogPrintf "OPENAI_API_KEY: %s" [VStr (OPENAI_API_KEY e0)];
                   LogPrintf "API URL: %s" [VStr url];
                   LogPrintf "plattform: %s" [VStr (GOOS e0)];
                   LogPrintf (nl ++ "%s" ++ nl)
                     [VData (payload f0 (GOOS e0) shell0 (pseudoCommand f0 (Args e0)))];
                   HttpDo (request (OPENAI_API_KEY e0)
                             (payload f0 (GOOS e0) shell0 (pseudoCommand f0 (Args e0)))) ]
                 ++ t)%list /\
              requests t = []).
  { intros e0 f0 shell0 Ht0 Hv0 Hk0.
    destruct (main_prefix e0 f0 shell0 Ht0 Hk0) as (t & Hfst & Hq).
    exists t. split; [| exact Hq].
    rewrite Hfst. unfold prelude, announce. rewrite Hv0. reflexivity. }
  split; [now apply Hshape |]. split; [| split].
  - simpl. rewrite append_empty_r. reflexivity.
  - intros e' f' shell' Ht' Hv' Hk' Hne Heq.
    destruct (Hshape e f shell Ht Hv Hk) as (t & Hm & _).
    destruct (Hshape e' f' shell' Ht' Hv' Hk') as (t' & Hm' & _).
    rewrite Hm, Hm' in Heq. simpl in Heq.
    injection Heq as _ Hkey _. contradiction.
  - intros e' f' Hf' Hv'. now apply (main_quiet_logs_nothing e' f').
Qed.

Lemma verbose_run_logs_credential_witness :
  let e := scenario_env "linux" "bash" ["-v"; "list"; "files"] "sk-secret"
             (Reply scenario_reply) ("n" ++ nl) None in
  In ("OPENAI_API_KEY: %s", [VStr "sk-secret"]) (logged (fst (main e))) /\
  text (LogPrintf "OPENAI_API_KEY: %s" [VStr "sk-secret"]) = Some "OPENAI_API_KEY: sk-secret".
Proof.
  intros e.
  assert (Ht : translates e {| verbose := true; displayVersion := false;
                               model := "gpt-3.5-turbo" |} "bash").
  { repeat split; try reflexivity. vm_compute. discriminate. }
  assert (Hk : OPENAI_API_KEY e <> "") by (vm_compute; discriminate).
  destruct (verbose_run_logs_credential e _ "bash" Ht eq_refl Hk)
    as ((t & Hm & _) & Htext & _).
  split; [| exact Htext].
  rewrite Hm. simpl. right. left. reflexivity.
Defined.

(** * Further properties of [main] and [makeCommand] *)

(** ** Runs that stop before the translation *)

Lemma main_flag_error e err :
  flag.Parse init (Args e) = flag.Failed err ->
  main e =
  match FindProcess e with
  | Some shell => ((FlagFail err :: usage_lines e shell)%list, Exit 2)
  | None => ([FlagFail err], Panic)
  end.
Proof.
  intros H. unfold main. rewrite H. unfold Usage.
  destruct (FindProcess e); reflexivity.
Qed.

Lemma main_help e :
  flag.Parse init (Args e) = flag.Help ->
  main e =
  match FindProcess e with
  | Some shell => (usage_lines e shell, Exit 0)
  | None => ([], Panic)
  end.
Proof.
  intros H. unfold main. rewrite H. unfold Usage.
  destruct (FindProcess e); reflexivity.
Qed.

Lemma main_version e f :
  flags_of e = Some f ->
  displayVersion f = true ->
  main e = ([Println Stdout [VStr ("Version: " ++ version)]], Exit 0).
Proof.
  intros Hf Hv. destruct (flags_of_Parse e f Hf) as [rest Hparse].
  unfold main. rewrite Hparse. unfold pipeline. rewrite Hv. reflexivity.
Qed.

Lemma main_empty_pseudo e f shell :
  flags_of e = Some f ->
  displayVersion f = false ->
  FindProcess e = Some shell ->
  pseudoCommand f (Args e) = "" ->
  main e = ((prelude f shell ++ example_lines e)%list, Exit 1).
Proof.
  intros Hf Hv Hp Hq. destruct (flags_of_Parse e f Hf) as [rest Hparse].
  unfold main. rewrite Hparse. unfold pipeline, shellContext. rewrite Hv, Hp, Hq.
  unfold prelude, debugPrintf. destruct (verbose f); reflexivity.
Qed.

(** Every run either reaches the translation step or is one of the early
    exits, which send nothing and start nothing. *)
Lemma main_classify e :
  (exists f shell, translates e f shell) \/
  (requests (fst (main e)) = [] /\ spawned (fst (main e)) = [] /\
   (snd (main e) = Exit 0 \/ snd (main e) = Exit 1 \/
    (snd (main e) = Exit 2 /\ exists err, flag.Parse init (Args e) = flag.Failed err) \/
    snd (main e) = Panic)).
Proof.
  destruct (flag.Parse init (Args e)) as [f rest | | err] eqn:Hparse.
  - assert (Hf : flags_of e = Some f) by (unfold flags_of; now rewrite Hparse).
    destruct (displayVersion f) eqn:Hv.
    { right. rewrite (main_version e f Hf Hv). simpl. auto. }
    destruct (FindProcess e) as [shell |] eqn:Hp.
    + destruct (String.eqb_spec (pseudoCommand f (Args e)) "") as [Hq | Hq].
      * right. rewrite (main_empty_pseudo e f shell Hf Hv Hp Hq).
        unfold prelude. destruct (verbose f); simpl; auto.
      * left. exists f, shell. repeat split; assumption.
    + right. unfold main. rewrite Hparse. unfold pipeline, shellContext.
      rewrite Hv, Hp. simpl. auto 6.
  - right. rewrite (main_help e Hparse). destruct (FindProcess e); simpl; auto 6.
  - right. rewrite (main_flag_error e err Hparse).
    destruct (FindProcess e); simpl; repeat split; eauto 7.
Qed.

(** How [makeCommand] and the confirmation stage can end. *)
Lemma makeCommand_outcomes f e pseudo shell :
  (exists command usage, snd (makeCommand f e pseudo shell) = Ret (command, usage)) \/
  snd (makeCommand f e pseudo shell) = Halt (Exit 1) \/
  snd (makeCommand f e pseudo shell) = Halt Panic.
Proof.
  destruct (String.eqb_spec (OPENAI_API_KEY e) "") as [Hk | Hk].
  { right. left. rewrite (makeCommand_no_key f e pseudo shell Hk). reflexivity. }
  destruct (Do e (request (OPENAI_API_KEY e) (payload f (GOOS e) shell pseudo)))
    as [err | err | result] eqn:Hd.
  - right. left. apply String.eqb_neq in Hk. unfold makeCommand, debugPrintf.
    rewrite Hk, Hd. destruct (verbose f); reflexivity.
  - right. left. apply String.eqb_neq in Hk. unfold makeCommand, debugPrintf.
    rewrite Hk, Hd. destruct (verbose f); reflexivity.
  - rewrite (makeCommand_Reply f e pseudo shell result Hk Hd). cbn [snd].
    destruct (lookup result "error") as [x |] eqn:He.
    + unfold extract. rewrite He.
      destruct x; simpl; auto.
    + destruct (extract_unshaped f result He) as [(c & u & Hs) | Hp]; [left | auto].
      exists c, u. now apply extract_shaped.
Qed.

Lemma confirmAndRun_spawned e shell command usage :
  spawned (fst (confirmAndRun e shell command usage)) =
  if scan.eqb (scan.Scanln (Stdin e) []) yes
  then match launcher (GOOS e) shell command with
       | Some (name, arg) => [(name, arg)]
       | None => []
       end
  else [].
Proof.
  unfold confirmAndRun.
  destruct (scan.eqb (scan.Scanln (Stdin e) []) yes); [| reflexivity].
  destruct (launcher (GOOS e) shell command) as [[name arg] |]; [| reflexivity].
  simpl. destruct (cmdRun e name arg); reflexivity.
Qed.

Lemma main_halted_spawned e f shell o :
  translates e f shell ->
  snd (makeCommand f e (pseudoCommand f (Args e)) shell) = Halt o ->
  spawned (fst (main e)) = [].
Proof.
  intros Ht Hm. rewrite (main_halted e f shell o Ht Hm). cbn [fst].
  rewrite spawned_app.
  rewrite (no_Run_spawned _ (makeCommand_no_Run f e (pseudoCommand f (Args e)) shell)).
  unfold prelude. destruct (verbose f); reflexivity.
Qed.

Lemma launcher_arguments goos shell command name arg :
  launcher goos shell command = Some (name, arg) ->
  name = shell /\ exists flg, arg = [flg; command].
Proof.
  unfold launcher.
  destruct (String.eqb goos "windows").
  - destruct (String.eqb_spec shell "powershell.exe") as [-> |];
      [intros H; injection H as <- <-; eauto |].
    destruct (String.eqb_spec shell "cmd.exe") as [-> |];
      [intros H; injection H as <- <-; eauto | discriminate].
  - destruct (String.eqb_spec shell "zsh") as [-> |];
      [intros H; injection H as <- <-; eauto |].
    destruct (String.eqb_spec shell "bash") as [-> |];
      [intros H; injection H as <- <-; eauto | discriminate].
Qed.

(** ** One request, one child (X1) *)

(** X1: whatever the environment, a run sends at most one request to the
    completion service and starts at most one child process; a child is
    only started after a request was sent. *)
Theorem at_most_one_request_and_child (e : Env) :
  (length (requests (fst (main e))) <= 1)%nat /\
  (length (spawned (fst (main e))) <= 1)%nat /\
  (length (spawned (fst (main e))) <= length (requests (fst (main e))))%nat.
Proof.
  destruct (main_classify e) as [(f & shell & Ht) | (Hr & Hs & _)];
    [| rewrite Hr, Hs; simpl; lia].
  destruct (String.eqb_spec (OPENAI_API_KEY e) "") as [Hk | Hk].
  - rewrite (main_no_key_no_HttpDo e Hk).
    assert (Hm : snd (makeCommand f e (pseudoCommand f (Args e)) shell) = Halt (Exit 1)).
    { rewrite (makeCommand_no_key f e _ shell Hk). reflexivity. }
    rewrite (main_halted_spawned e f shell _ Ht Hm). simpl. lia.
  - rewrite (request_follows_template e f shell Ht Hk).
    destruct (makeCommand_outcomes f e (pseudoCommand f (Args e)) shell)
      as [(c & u & Hm) | [Hm | Hm]].
    + rewrite (main_answered_spawned e f shell c u (conj Ht Hm)), confirmAndRun_spawned.
      destruct (scan.eqb (scan.Scanln (Stdin e) []) yes); [| simpl; lia].
      destruct (launcher (GOOS e) shell c) as [[name arg] |]; simpl; lia.
    + rewrite (main_halted_spawned e f shell _ Ht Hm). simpl. lia.
    + rewrite (main_halted_spawned e f shell _ Ht Hm). simpl. lia.
Qed.

Lemma answered_has_key e f shell command usage :
  answered e f shell command usage -> OPENAI_API_KEY e <> "".
Proof.
  intros [_ Hm] Hk.
  rewrite (makeCommand_no_key f e _ shell Hk) in Hm. discriminate.
Qed.

Lemma requests_announce f e pseudo shell :
  requests (announce f e pseudo shell) =
  [request (OPENAI_API_KEY e) (payload f (GOOS e) shell pseudo)].
Proof. unfold announce. destruct (verbose f); reflexivity. Qed.

(** ** What is run is what was shown (X2) *)

(** X2: a child process is only ever started on the path through the
    confirmation: the request was sent before, the word read at the prompt
    is [y], the program is the shell found for the parent process, and
    its last argument is the very command that was shown in cyan just
    before the prompt, which is the command [makeCommand] returned. *)
Theorem child_runs_the_displayed_command (e : Env) (name : string) (arg : list string) :
  In (name, arg) (spawned (fst (main e))) ->
  exists f shell command usage flg t1 t2,
    answered e f shell command usage /\
    name = shell /\
    arg = [flg; command] /\
    scan.Scanln (Stdin e) [] = yes /\
    requests t1 <> [] /\
    fst (main e) =
      (t1 ++ [Cyan command; Print Stdout "Run? (y/n) "; Run name arg] ++ t2)%list.
Proof.
  intros Hin.
  destruct (main_classify e) as [(f & shell & Ht) | (_ & Hs & _)];
    [| rewrite Hs in Hin; contradiction].
  destruct (makeCommand_outcomes f e (pseudoCommand f (Args e)) shell)
    as [(c & u & Hm) | [Hm | Hm]];
    try (rewrite (main_halted_spawned e f shell _ Ht Hm) in Hin; contradiction).
  pose proof (conj Ht Hm : answered e f shell c u) as Ha.
  rewrite (main_answered_spawned e f shell c u Ha), confirmAndRun_spawned in Hin.
  destruct (scan.eqb (scan.Scanln (Stdin e) []) yes) eqn:Hy; [| contradiction].
  destruct (launcher (GOOS e) shell c) as [[n a] |] eqn:HL; [| contradiction].
  destruct Hin as [Heq | []]. injection Heq as -> ->.
  destruct (launcher_arguments _ _ _ _ _ HL) as (-> & flg & ->).
  pose proof (answered_has_key e f shell c u Ha) as Hk.
  destruct (makeCommand_keyed f e (pseudoCommand f (Args e)) shell Hk) as (t & Hfst & _).
  exists f, shell, c, u, flg.
  exists (prelude f shell ++ fst (makeCommand f e (pseudoCommand f (Args e)) shell) ++
          [ Printf Stdout
              ("Looks insanely complicated? Don't panic. The answer is ..." ++ nl) [];
            Printf Stdout ("number of tokens used (total_tokens): %.1f" ++ nl)
              [index u "total_tokens"] ])%list.
  exists (match cmdRun e shell [flg; c] with
          | Some err => [Println Stdout [VStr "Error: "; VErr err]]
          | None => []
          end).
  split; [exact Ha |]. split; [reflexivity |]. split; [reflexivity |].
  split; [now apply scan_eqb_eq |]. split.
  - rewrite !requests_app, Hfst, requests_app, requests_announce.
    unfold prelude. destruct (verbose f); discriminate.
  - rewrite (main_answered e f shell c u Ha), (confirmAndRun_yes e shell c u _ _ Hy HL).
    cbn [fst]. unfold display. rewrite <- !app_assoc. reflexivity.
Qed.

Lemma child_runs_the_displayed_command_witness :
  let e := scenario_env "linux" "bash" scenario_args "sk-test"
             (Reply scenario_reply) ("y" ++ nl) None in
  exists f shell command usage flg t1 t2,
    answered e f shell command usage /\
    "bash" = shell /\
    ["-c"; "find . -type f -size +42k"] = [flg; command] /\
    scan.Scanln (Stdin e) [] = yes /\
    requests t1 <> [] /\
    fst (main e) =
      (t1 ++ [Cyan command; Print Stdout "Run? (y/n) ";
              Run "bash" ["-c"; "find . -type f -size +42k"]] ++ t2)%list.
Proof.
  intros e.
  apply (child_runs_the_displayed_command e "bash" ["-c"; "find . -type f -size +42k"]).
  vm_compute. left. reflexivity.
Defined.

(** ** The shape of a request (X3) *)

(** X3: whatever the environment, a request that a run sends is a POST to
    the chat completions address with the JSON content type, a time limit
    of ten seconds, the credential, which is not empty, behind the word
    Bearer, a token limit of 1000, the model of the [-m] flag, and one
    message of the role user whose content is the prompt for the platform,
    the shell found and the pseudo command. *)
Theorem every_request_is_the_template (e : Env) (req : Request) :
  In req (requests (fst (main e))) ->
  OPENAI_API_KEY e <> "" /\
  Method req = "POST" /\
  URL req = "https://api.openai.com/v1/chat/completions" /\
  ContentType req = "application/json" /\
  TimeoutSeconds req = 10%Z /\
  Authorization req = "Bearer " ++ OPENAI_API_KEY e /\
  MaxTokens (Body req) = 1000%Z /\
  exists f shell,
    translates e f shell /\
    Model (Body req) = model f /\
    Messages (Body req) =
      [ {| Role := "user";
           Content := prompt (GOOS e) shell (pseudoCommand f (Args e)) |} ].
Proof.
  intros Hin.
  destruct (main_classify e) as [(f & shell & Ht) | (Hr & _)];
    [| rewrite Hr in Hin; contradiction].
  destruct (String.eqb_spec (OPENAI_API_KEY e) "") as [Hk | Hk].
  { rewrite (main_no_key_no_HttpDo e Hk) in Hin. contradiction. }
  rewrite (request_follows_template e f shell Ht Hk) in Hin.
  destruct Hin as [<- | []]. cbn.
  repeat split; try assumption; try reflexivity.
  exists f, shell. repeat split; try reflexivity; apply Ht.
Qed.

Lemma every_request_is_the_template_witness :
  let e := scenario_env "darwin" "zsh" ["-m"; "gpt-4"; "list"; "files"] "sk-test"
             (Reply scenario_reply) ("n" ++ nl) None in
  let req := request "sk-test"
               (payload {| verbose := false; displayVersion := false; model := "gpt-4" |}
                  "darwin" "zsh" " list files") in
  Authorization req = "Bearer sk-test" /\ MaxTokens (Body req) = 1000%Z.
Proof.
  intros e req.
  assert (Hin : In req (requests (fst (main e)))) by (vm_compute; left; reflexivity).
  destruct (every_request_is_the_template e req Hin) as (_ & _ & _ & _ & _ & Ha & Hm & _).
  split; [exact Ha | exact Hm].
Defined.

(** ** Transport failures (X4) *)

(** X4: when the request cannot be carried out the run prints the error
    after [Error:], and when the body of the reply cannot be read it
    prints the error after [Error reading response:]; either way that line
    ends the output, the exit status is 1, nothing is displayed for
    confirmation and nothing is run. *)
Theorem transport_failure_ends_run (e : Env) (f : Flags) (shell err : string) :
  translates e f shell ->
  OPENAI_API_KEY e <> "" ->
  (Do e (request (OPENAI_API_KEY e)
           (payload f (GOOS e) shell (pseudoCommand f (Args e)))) = DoError err ->
   main e =
     ((prelude f shell ++ announce f e (pseudoCommand f (Args e)) shell ++
       [Println Stdout [VStr "Error:"; VErr err]])%list,
      Exit 1) /\
   spawned (fst (main e)) = []) /\
  (Do e (request (OPENAI_API_KEY e)
           (payload f (GOOS e) shell (pseudoCommand f (Args e)))) = ReadError err ->
   main e =
     ((prelude f shell ++ announce f e (pseudoCommand f (Args e)) shell ++
       [Println Stdout [VStr "Error reading response:"; VErr err]])%list,
      Exit 1) /\
   spawned (fst (main e)) = []) /\
  text (Println Stdout [VStr "Error:"; VErr err]) = Some ("Error: " ++ err ++ nl) /\
  text (Println Stdout [VStr "Error reading response:"; VErr err]) =
    Some ("Error reading response: " ++ err ++ nl).
Proof.
  intros Ht Hk.
  pose proof Hk as Hk'. apply String.eqb_neq in Hk'.
  assert (Hrun : forall label,
            makeCommand f e (pseudoCommand f (Args e)) shell =
            ((announce f e (pseudoCommand f (Args e)) shell ++
              [Println Stdout [VStr label; VErr err]])%list, Halt (Exit 1)) ->
            main e =
              ((prelude f shell ++ announce f e (pseudoCommand f (Args e)) shell ++
                [Println Stdout [VStr label; VErr err]])%list,
               Exit 1) /\
            spawned (fst (main e)) = []).
  { intros label Hmk.
    assert (Hm : snd (makeCommand f e (pseudoCommand f (Args e)) shell) = Halt (Exit 1))
      by (rewrite Hmk; reflexivity).
    split; [| exact (main_halted_spawned e f shell _ Ht Hm)].
    rewrite (main_halted e f shell _ Ht Hm), Hmk. reflexivity. }
  split; [| split; [| split; reflexivity]].
  - intros Hd. apply Hrun.
    unfold makeCommand, announce, debugPrintf. rewrite Hk', Hd.
    destruct (verbose f); reflexivity.
  - intros Hd. apply Hrun.
    unfold makeCommand, announce, debugPrintf. rewrite Hk', Hd.
    destruct (verbose f); reflexivity.
Qed.

Lemma transport_failure_ends_run_witness :
  let e1 := scenario_env "darwin" "zsh" scenario_args "sk-test"
              (DoError "context deadline exceeded") ("y" ++ nl) None in
  let e2 := scenario_env "darwin" "zsh" scenario_args "sk-test"
              (ReadError "unexpected EOF") ("y" ++ nl) None in
  (main e1 =
     ([ HttpDo (request "sk-test"
                  (payload init "darwin" "zsh"
                     "Find files larger than 42kB in the current directory"));
        Println Stdout [VStr "Error:"; VErr "context deadline exceeded"] ],
      Exit 1) /\
   spawned (fst (main e1)) = []) /\
  (main e2 =
     ([ HttpDo (request "sk-test"
                  (payload init "darwin" "zsh"
                     "Find files larger than 42kB in the current directory"));
        Println Stdout [VStr "Error reading response:"; VErr "unexpected EOF"] ],
      Exit 1) /\
   spawned (fst (main e2)) = []).
Proof.
  intros e1 e2.
  assert (Ht1 : translates e1 init "zsh").
  { repeat split; try reflexivity. vm_compute. discriminate. }
  assert (Ht2 : translates e2 init "zsh").
  { repeat split; try reflexivity. vm_compute. discriminate. }
  assert (Hk1 : OPENAI_API_KEY e1 <> "") by (vm_compute; discriminate).
  assert (Hk2 : OPENAI_API_KEY e2 <> "") by (vm_compute; discriminate).
  split.
  - exact (proj1 (transport_failure_ends_run e1 init "zsh" "context deadline exceeded"
                    Ht1 Hk1) eq_refl).
  - exact (proj1 (proj2 (transport_failure_ends_run e2 init "zsh" "unexpected EOF"
                           Ht2 Hk2)) eq_refl).
Defined.

(** ** The command line *)

Lemma substring_whole (s : string) : substring 0 (String.length s) s = s.
Proof. induction s as [| c s IH]; simpl; [| rewrite IH]; reflexivity. Qed.

Lemma prefix_append (old s : string) : prefix old (old ++ s) = true.
Proof.
  induction old as [| c old IH]; simpl; [destruct s; reflexivity |].
  destruct (ascii_dec c c) as [_ | H]; [exact IH | contradiction].
Qed.

Lemma substring_after (old s : string) :
  substring (String.length old) (String.length (old ++ s) - String.length old) (old ++ s) = s.
Proof.
  induction old as [| c old IH]; simpl.
  - rewrite Nat.sub_0_r. apply substring_whole.
  - exact IH.
Qed.

(** Cutting [old] out of a text that starts with it leaves the rest. *)
Lemma Remove1_prefix (old s : string) : strings.Remove1 (old ++ s) old = s.
Proof.
  destruct (old ++ s) as [| c r] eqn:E; cbn [strings.Remove1]; rewrite <- E;
    rewrite prefix_append; apply substring_after.
Qed.

Lemma Remove1_self (s : string) : strings.Remove1 s s = "".
Proof.
  rewrite <- (append_empty_r s) at 1. apply Remove1_prefix.
Qed.

(** An argument that is not a flag ends the parsing: it and everything
    after it are positional. *)
Lemma Parse_undashed f w rest :
  dashed w = false -> flag.Parse f (w :: rest) = flag.Parsed f (w :: rest).
Proof.
  destruct w as [| c [| c' w']]; try reflexivity;
    destruct c as [[] [] [] [] [] [] [] []]; try reflexivity; discriminate.
Qed.

(** ** Flags without words (X5, X6) *)

(** X5: a command line with nothing on it, with [-v] alone, or with [-m]
    and a model alone has an empty pseudo command: the run prints the flag
    defaults and the example line and exits with status 1, before the
    credential is read and without any request. *)
Theorem flags_without_words_print_the_example (e : Env) (shell : string) :
  FindProcess e = Some shell ->
  Args e = [] \/ Args e = ["-v"] \/ (exists m, Args e = ["-m"; m]) ->
  exists f,
    flags_of e = Some f /\
    main e = ((prelude f shell ++ example_lines e)%list, Exit 1) /\
    requests (fst (main e)) = [].
Proof.
  intros Hp Hargs.
  assert (H : exists f, flags_of e = Some f /\ displayVersion f = false /\
                        pseudoCommand f (Args e) = "").
  { unfold flags_of. destruct Hargs as [H | [H | [m H]]]; rewrite H.
    - exists init. repeat split.
    - exists {| verbose := true; displayVersion := false; model := "gpt-3.5-turbo" |}.
      repeat split.
    - exists {| verbose := false; displayVersion := false; model := m |}.
      split; [reflexivity |]. split; [reflexivity |].
      unfold pseudoCommand. cbn [verbose model strings.Join String.concat].
      change ("-m" ++ " " ++ m) with ("-m " ++ m). apply Remove1_self. }
  destruct H as (f & Hf & Hv & Hq). exists f.
  rewrite (main_empty_pseudo e f shell Hf Hv Hp Hq). cbn [fst].
  repeat split; try assumption.
  unfold prelude. destruct (verbose f); reflexivity.
Qed.

Lemma flags_without_words_print_the_example_witness :
  let e := scenario_env "linux" "bash" ["-m"; "gpt-4"] "" (Reply scenario_reply) "" None in
  exists f,
    flags_of e = Some f /\
    main e = ((prelude f "bash" ++ example_lines e)%list, Exit 1) /\
    requests (fst (main e)) = [].
Proof.
  intros e.
  apply (flags_without_words_print_the_example e "bash"); [reflexivity |].
  right. right. exists "gpt-4". reflexivity.
Defined.

(** X6: with both [-v] and [-m] and a model, and no words, the text left
    after the two cuts is the space that stood between the flags, so the
    test for an empty pseudo command does not fire: a run with a credential
    sends a request whose pseudo command is that one space. *)
Theorem both_flags_without_words_reach_the_oracle (e : Env) (shell m : string) :
  Args e = ["-v"; "-m"; m] ->
  FindProcess e = Some shell ->
  OPENAI_API_KEY e <> "" ->
  pseudoCommand {| verbose := true; displayVersion := false; model := m |} (Args e) = " " /\
  requests (fst (main e)) =
    [request (OPENAI_API_KEY e)
       (payload {| verbose := true; displayVersion := false; model := m |}
          (GOOS e) shell " ")].
Proof.
  intros Hargs Hp Hk.
  set (f := {| verbose := true; displayVersion := false; model := m |}).
  assert (Hq : pseudoCommand f (Args e) = " ").
  { rewrite Hargs. unfold pseudoCommand, f.
    cbn [verbose model strings.Join String.concat].
    change ("-v" ++ " " ++ "-m" ++ " " ++ m) with ("-v" ++ " " ++ "-m " ++ m).
    rewrite Remove1_prefix.
    change (" " ++ "-m " ++ m) with (String " " ("-m " ++ m)).
    cbn [strings.Remove1 prefix append].
    destruct (ascii_dec "-" " ") as [H | _]; [discriminate |].
    f_equal. apply (Remove1_self ("-m " ++ m)). }
  split; [exact Hq |].
  assert (Ht : translates e f shell).
  { repeat split; try assumption; try reflexivity.
    - unfold flags_of. rewrite Hargs. reflexivity.
    - rewrite Hq. discriminate. }
  rewrite (request_follows_template e f shell Ht Hk), Hq. reflexivity.
Qed.

Lemma both_flags_without_words_reach_the_oracle_witness :
  let e := scenario_env "linux" "bash" ["-v"; "-m"; "gpt-4"] "sk-test"
             (Reply scenario_reply) ("n" ++ nl) None in
  requests (fst (main e)) =
    [request "sk-test"
       (payload {| verbose := true; displayVersion := false; model := "gpt-4" |}
          "linux" "bash" " ")].
Proof.
  intros e.
  refine (proj2 (both_flags_without_words_reach_the_oracle e "bash" "gpt-4" eq_refl eq_refl _)).
  vm_compute. discriminate.
Defined.

(** ** The version flag (X7) *)

(** X7: with [-V] as the first argument, followed by nothing or by words,
    the run prints the version and exits with status 0 and does nothing
    else: the words are not read, the parent process is not looked up
    (so a failed lookup does no harm), and no credential is needed. *)
Theorem version_flag_stops_the_run (e : Env) (rest : list string) :
  Args e = "-V" :: rest ->
  match rest with w :: _ => dashed w = false | [] => True end ->
  main e = ([Println Stdout [VStr "Version: 0.1"]], Exit 0) /\
  text (Println Stdout [VStr "Version: 0.1"]) = Some ("Version: 0.1" ++ nl).
Proof.
  intros Hargs Hrest. split; [| reflexivity].
  apply (main_version e {| verbose := false; displayVersion := true;
                           model := "gpt-3.5-turbo" |}); [| reflexivity].
  unfold flags_of. rewrite Hargs.
  destruct rest as [| w rest']; [reflexivity |].
  change (flag.Parse init ("-V" :: w :: rest'))
    with (flag.Parse (flag.set_bool init "V" true) (w :: rest')).
  rewrite (Parse_undashed _ w rest' Hrest). reflexivity.
Qed.

Lemma version_flag_stops_the_run_witness :
  let e := {| GOOS := "linux";
              Args := ["-V"; "list"; "files"];
              thisCommand := "gpt-cli-tool";
              OPENAI_API_KEY := "";
              FindProcess := None;
              Do := fun _ => DoError "unreachable";
              Stdin := [];
              cmdRun := fun _ _ => None |} in
  main e = ([Println Stdout [VStr "Version: 0.1"]], Exit 0).
Proof.
  intros e.
  exact (proj1 (version_flag_stops_the_run e ["list"; "files"] eq_refl eq_refl)).
Defined.

(** ** Flag errors (X8) *)

Lemma cut_no_equals s : no_equals s = true -> flag.cut s = (s, None).
Proof.
  induction s as [| c s IH]; simpl; [reflexivity |].
  intros H. apply andb_prop in H. destruct H as [Hc Hs].
  apply negb_true_iff in Hc. rewrite Hc, (IH Hs). reflexivity.
Qed.

Lemma Parse_not_defined f c0 name rest :
  Ascii.eqb c0 "-" = false ->
  Ascii.eqb c0 "=" = false ->
  no_equals name = true ->
  existsb (String.eqb (String c0 name)) ["v"; "V"; "m"; "help"; "h"] = false ->
  flag.Parse f (String "-" (String c0 name) :: rest) =
  flag.Failed (flag.NotDefined (String c0 name)).
Proof.
  intros Hd He Hn Hx.
  cbn [flag.Parse].
  assert (Hs : String.eqb (String "-" (String c0 name)) "--" = false).
  { cbn. rewrite Hd. reflexivity. }
  rewrite Hs, Hd. cbv iota beta. rewrite Hd, He. cbn [orb].
  unfold flag.split. rewrite (cut_no_equals name Hn).
  cbn [existsb] in Hx.
  repeat (apply orb_false_elim in Hx; destruct Hx as [?H Hx]).
  repeat match goal with H : String.eqb _ _ = false |- _ => rewrite H; clear H end.
  reflexivity.
Qed.

(** X8: an argument that names a flag the program does not have ends the
    run before anything else happens: the error and the usage text, with
    the platform and the shell name in its first line, go to standard
    error, the exit status is 2, no request is sent and no process is
    started.  When the parent process is not found the usage text itself
    panics. *)
Theorem unknown_flag_prints_usage (e : Env) (c0 : ascii) (name : string) (rest : list string) :
  Args e = String "-" (String c0 name) :: rest ->
  Ascii.eqb c0 "-" = false ->
  Ascii.eqb c0 "=" = false ->
  no_equals name = true ->
  existsb (String.eqb (String c0 name)) ["v"; "V"; "m"; "help"; "h"] = false ->
  main e =
    match FindProcess e with
    | Some shell =>
        ((FlagFail (flag.NotDefined (String c0 name)) :: usage_lines e shell)%list, Exit 2)
    | None => ([FlagFail (flag.NotDefined (String c0 name))], Panic)
    end /\
  requests (fst (main e)) = [] /\
  spawned (fst (main e)) = [].
Proof.
  intros Hargs Hd He Hn Hx.
  assert (Hparse : flag.Parse init (Args e) =
                   flag.Failed (flag.NotDefined (String c0 name))).
  { rewrite Hargs. now apply Parse_not_defined. }
  rewrite (main_flag_error e _ Hparse).
  destruct (FindProcess e); repeat split.
Qed.

Lemma unknown_flag_prints_usage_witness :
  let e := scenario_env "linux" "bash" ["-x"; "list"; "files"] "sk-test"
             (Reply scenario_reply) ("y" ++ nl) None in
  main e = ((FlagFail (flag.NotDefined "x") :: usage_lines e "bash")%list, Exit 2) /\
  requests (fst (main e)) = [] /\
  spawned (fst (main e)) = [].
Proof.
  intros e.
  exact (unknown_flag_prints_usage e "x" "" ["list"; "files"]
           eq_refl eq_refl eq_refl eq_refl eq_refl).
Defined.

(** ** Exit statuses (X9) *)

Lemma confirmAndRun_outcomes e shell command usage :
  snd (confirmAndRun e shell command usage) = Ret tt \/
  snd (confirmAndRun e shell command usage) = Halt (Exit 1).
Proof.
  unfold confirmAndRun.
  destruct (scan.eqb (scan.Scanln (Stdin e) []) yes); [| left; reflexivity].
  destruct (launcher (GOOS e) shell command) as [[name arg] |]; [| right; reflexivity].
  left. simpl. destruct (cmdRun e name arg); reflexivity.
Qed.

(** X9: whatever the environment, the process ends with status 0, 1 or 2;
    status 2 comes only from a flag error or from a run-time panic, and
    once a request has been sent the run does not end with [os.Exit(2)]. *)
Theorem exit_status_is_0_1_or_2 (e : Env) :
  In (status (snd (main e))) [0; 1; 2]%Z /\
  (status (snd (main e)) = 2%Z ->
   snd (main e) = Panic \/ exists err, flag.Parse init (Args e) = flag.Failed err) /\
  (requests (fst (main e)) <> [] -> snd (main e) <> Exit 2).
Proof.
  destruct (main_classify e) as [(f & shell & Ht) | (Hr & _ & Ho)].
  - assert (H : snd (main e) = Exit 0 \/ snd (main e) = Exit 1 \/ snd (main e) = Panic).
    { destruct (makeCommand_outcomes f e (pseudoCommand f (Args e)) shell)
        as [(c & u & Hm) | [Hm | Hm]].
      - rewrite (main_answered e f shell c u (conj Ht Hm)). cbn [snd].
        destruct (confirmAndRun e shell c u) as [t [[] | o]] eqn:E.
        + left. reflexivity.
        + destruct (confirmAndRun_outcomes e shell c u) as [H | H];
            rewrite E in H; simpl in H; [discriminate |].
          injection H as ->. right. left. reflexivity.
      - rewrite (main_halted e f shell _ Ht Hm). auto.
      - rewrite (main_halted e f shell _ Ht Hm). auto. }
    destruct H as [H | [H | H]]; rewrite H; simpl; repeat split;
      auto; try discriminate; intros; discriminate.
  - destruct Ho as [H | [H | [[H Herr] | H]]]; rewrite H; simpl; repeat split;
      auto; try discriminate; try (intros; discriminate);
      intros Hq; contradiction.
Qed.

(** ** Logging does not change the run (X10) *)

Lemma unlogged_app t1 t2 : unlogged (t1 ++ t2)%list = (unlogged t1 ++ unlogged t2)%list.
Proof. apply filter_app. Qed.

Lemma same_but_logs_bind A B (m m' : M A) (k k' : A -> M B) :
  same_but_logs m m' ->
  (forall a, same_but_logs (k a) (k' a)) ->
  same_but_logs (bind m k) (bind m' k').
Proof.
  unfold same_but_logs.
  destruct m as [t [a | o]], m' as [t' [a' | o']]; simpl;
    intros [Hs Ht] Hk; try discriminate.
  - injection Hs as <-. destruct (Hk a) as [Hks Hkt].
    split; [exact Hks |]. rewrite unlogged_app, Ht, Hkt. reflexivity.
  - injection Hs as ->. split; [reflexivity | exact Ht].
Qed.

Lemma same_but_logs_debugPrintf f format a :
  same_but_logs (debugPrintf f format a) (debugPrintf (quiet f) format a).
Proof. unfold same_but_logs, debugPrintf. destruct (verbose f); split; reflexivity. Qed.

Lemma same_but_logs_refl A (m : M A) :
  unlogged (fst m) = fst m -> same_but_logs m m.
Proof. intros H. split; [reflexivity | exact H]. Qed.

Ltac same_step :=
  match goal with
  | |- same_but_logs (bind _ _) (bind _ _) => apply same_but_logs_bind; [| intros ?]
  | |- same_but_logs (debugPrintf _ _ _) (debugPrintf _ _ _) =>
      apply same_but_logs_debugPrintf
  | |- same_but_logs (if ?c then _ else _) _ => destruct c
  | |- same_but_logs (match ?x with _ => _ end) _ => destruct x
  | |- same_but_logs _ _ => apply same_but_logs_refl; reflexivity
  end.

Lemma extract_quiet f result :
  same_but_logs (extract f result) (extract (quiet f) result).
Proof.
  unfold extract, assert_map, assert_slice, assert_string, elem0. repeat same_step.
Qed.

(** X10: [-v] only adds log lines to [makeCommand]: with the same
    environment, pseudo command and shell name, the function returns the
    same command and usage, or ends the process in the same way, and
    its events without the log lines are the events of the call without
    [-v], the request among them. *)
Theorem verbose_only_adds_log_lines (f : Flags) (e : Env) (pseudo shell : string) :
  snd (makeCommand f e pseudo shell) = snd (makeCommand (quiet f) e pseudo shell) /\
  unlogged (fst (makeCommand f e pseudo shell)) = fst (makeCommand (quiet f) e pseudo shell) /\
  requests (fst (makeCommand f e pseudo shell)) =
    requests (fst (makeCommand (quiet f) e pseudo shell)).
Proof.
  assert (H : same_but_logs (makeCommand f e pseudo shell)
                (makeCommand (quiet f) e pseudo shell)).
  { unfold makeCommand.
    change (payload (quiet f) (GOOS e) shell pseudo) with (payload f (GOOS e) shell pseudo).
    repeat (first [apply extract_quiet | same_step]). }
  destruct H as [Hs Ht]. split; [exact Hs |]. split; [exact Ht |].
  rewrite <- Ht. generalize (fst (makeCommand f e pseudo shell)). intros t.
  induction t as [| ev t IH]; [reflexivity |].
  destruct ev; simpl; try rewrite IH; reflexivity.
Qed.

(** ** An [error] member that is no object (X11) *)

(** X11: when the reply has an [error] member that is not an object (a
    string, a number, [null], an array), the type assertion on it fails:
    the run panics right after the request, prints no error message of
    its own and shows no command, whatever else the reply holds. *)
Theorem error_member_not_object_panics (e : Env) (f : Flags) (shell : string)
    (result : object) (x : any) :
  translates e f shell ->
  OPENAI_API_KEY e <> "" ->
  Do e (request (OPENAI_API_KEY e)
          (payload f (GOOS e) shell (pseudoCommand f (Args e)))) = Reply result ->
  lookup result "error" = Some x ->
  (forall errorDetails, x <> VMap errorDetails) ->
  main e =
    ((prelude f shell ++ announce f e (pseudoCommand f (Args e)) shell)%list, Panic) /\
  status (snd (main e)) = 2%Z /\
  spawned (fst (main e)) = [].
Proof.
  intros Ht Hk Hd He Hx.
  assert (Hex : extract f result = ([], Halt Panic)).
  { unfold extract. rewrite He.
    destruct x; try reflexivity. exfalso. now apply (Hx m). }
  assert (Hm : snd (makeCommand f e (pseudoCommand f (Args e)) shell) = Halt Panic).
  { rewrite (makeCommand_Reply f e _ shell result Hk Hd), Hex. reflexivity. }
  assert (Hmain : main e =
            ((prelude f shell ++ announce f e (pseudoCommand f (Args e)) shell)%list, Panic)).
  { rewrite (main_halted e f shell _ Ht Hm), (makeCommand_Reply f e _ shell result Hk Hd), Hex.
    cbn [fst]. rewrite app_nil_r. reflexivity. }
  split; [exact Hmain |]. split; [rewrite Hmain; reflexivity |].
  exact (main_halted_spawned e f shell _ Ht Hm).
Qed.

Lemma error_member_not_object_panics_witness :
  let e := scenario_env "darwin" "zsh" scenario_args "sk-test"
             (Reply (("error", VStr "upstream timeout") :: scenario_reply))
             ("y" ++ nl) None in
  main e =
    ((prelude init "zsh" ++ announce init e (pseudoCommand init (Args e)) "zsh")%list, Panic) /\
  status (snd (main e)) = 2%Z /\
  spawned (fst (main e)) = [].
Proof.
  intros e.
  apply (error_member_not_object_panics e init "zsh"
           (("error", VStr "upstream timeout") :: scenario_reply) (VStr "upstream timeout")).
  - repeat split; try reflexivity. vm_compute. discriminate.
  - vm_compute. discriminate.
  - reflexivity.
  - reflexivity.
  - intros d. discriminate.
Defined.

(** ** Words without flags (X12) *)

(** X12: when the first argument is not a flag, every argument is a word,
    also a later [-v] or [-m]: the run is not verbose, uses the default
    model, and, unless the words spell the default model flag, sends as the
    pseudo command exactly the arguments joined by single spaces. *)
Theorem plain_words_are_sent_joined (e : Env) (w : string) (rest : list string)
    (shell : string) :
  Args e = w :: rest ->
  dashed w = false ->
  strings.Contains (strings.Join (Args e) " ") "-m gpt-3.5-turbo" = false ->
  strings.Join (Args e) " " <> "" ->
  FindProcess e = Some shell ->
  OPENAI_API_KEY e <> "" ->
  flags_of e = Some init /\
  positional e = Args e /\
  requests (fst (main e)) =
    [request (OPENAI_API_KEY e)
       (payload init (GOOS e) shell (strings.Join (Args e) " "))] /\
  logged (fst (main e)) = [].
Proof.
  intros Hargs Hw Hc Hj Hp Hk.
  assert (Hparse : flag.Parse init (Args e) = flag.Parsed init (Args e)).
  { rewrite Hargs. now apply Parse_undashed. }
  assert (Hf : flags_of e = Some init) by (unfold flags_of; now rewrite Hparse).
  assert (Hq : pseudoCommand init (Args e) = strings.Join (Args e) " ")
    by now apply pseudoCommand_plain.
  assert (Ht : translates e init shell).
  { repeat split; try assumption; try reflexivity. now rewrite Hq. }
  split; [exact Hf |]. split; [unfold positional; now rewrite Hparse |]. split.
  - rewrite (request_follows_template e init shell Ht Hk), Hq. reflexivity.
  - now apply (main_quiet_logs_nothing e init).
Qed.

Lemma plain_words_are_sent_joined_witness :
  let e := scenario_env "linux" "bash" ["grep"; "-v"; "foo"; "in"; "all"; "logs"] "sk-test"
             (Reply scenario_reply) ("n" ++ nl) None in
  requests (fst (main e)) =
    [request "sk-test" (payload init "linux" "bash" "grep -v foo in all logs")] /\
  logged (fst (main e)) = [].
Proof.
  intros e.
  refine (proj2 (proj2 (plain_words_are_sent_joined e "grep"
                          ["-v"; "foo"; "in"; "all"; "logs"] "bash"
                          eq_refl eq_refl eq_refl _ eq_refl _)));
    vm_compute; discriminate.
Defined.

(** ** The shell is looked at last (X13) *)

(** X13: whether the shell can be used is only found out after the
    confirmation.  With a shell the switch does not know, a run with a
    credential and a well-shaped reply still sends its request, shows the
    command and asks; it ends with the error and status 1 when the answer
    is [y], and with status 0 and no word about the shell otherwise. *)
Theorem unsupported_shell_is_found_after_the_prompt (e : Env) (f : Flags)
    (shell command : string) (usage : object) :
  answered e f shell command usage ->
  launcher (GOOS e) shell command = None ->
  requests (fst (main e)) =
    [request (OPENAI_API_KEY e)
       (payload f (GOOS e) shell (pseudoCommand f (Args e)))] /\
  spawned (fst (main e)) = [] /\
  main e =
    ((prelude f shell ++ fst (makeCommand f e (pseudoCommand f (Args e)) shell) ++
      display command usage ++
      if scan.eqb (scan.Scanln (Stdin e) []) yes
      then [Printf Stdout "Error: unsupported shell %s on %s" [VStr shell; VStr (GOOS e)]]
      else [])%list,
     if scan.eqb (scan.Scanln (Stdin e) []) yes then Exit 1 else Exit 0).
Proof.
  intros Ha HL.
  pose proof (answered_has_key e f shell command usage Ha) as Hk.
  split; [exact (request_follows_template e f shell (proj1 Ha) Hk) |]. split.
  - rewrite (main_answered_spawned e f shell command usage Ha), confirmAndRun_spawned, HL.
    destruct (scan.eqb (scan.Scanln (Stdin e) []) yes); reflexivity.
  - rewrite (main_answered e f shell command usage Ha).
    destruct (scan.eqb (scan.Scanln (Stdin e) []) yes) eqn:Hy.
    + rewrite (confirmAndRun_unsupported e shell command usage Hy HL). reflexivity.
    + rewrite (confirmAndRun_no e shell command usage Hy). cbn [fst snd run].
      rewrite app_nil_r. reflexivity.
Qed.

Lemma unsupported_shell_is_found_after_the_prompt_witness :
  let e := scenario_env "linux" "fish" scenario_args "sk-test"
             (Reply scenario_reply) ("n" ++ nl) None in
  requests (fst (main e)) =
    [request "sk-test" (payload init "linux" "fish"
                          "Find files larger than 42kB in the current directory")] /\
  spawned (fst (main e)) = [] /\
  snd (main e) = Exit 0.
Proof.
  intros e.
  assert (Ha : answered e init "fish" "find . -type f -size +42k" [("total_tokens", VNum 100)]).
  { repeat split; try reflexivity. vm_compute. discriminate. }
  destruct (unsupported_shell_is_found_after_the_prompt e init "fish" _ _ Ha eq_refl)
    as (Hr & Hs & Hm).
  split; [exact Hr |]. split; [exact Hs |]. rewrite Hm. reflexivity.
Defined.

(** ** The model flag (X14) *)

Lemma append_assoc_string (a b c : string) : (a ++ b) ++ c = a ++ b ++ c.
Proof. induction a as [| x a IH]; simpl; [| rewrite IH]; reflexivity. Qed.

(** X14: with [-m], a model and then words that do not start with a flag,
    the request names that model, and the pseudo command is the words
    joined by single spaces behind the one space that followed the
    model on the command line. *)
Theorem model_flag_sets_the_request_model (e : Env) (m w : string) (rest : list string)
    (shell : string) :
  Args e = "-m" :: m :: w :: rest ->
  dashed w = false ->
  FindProcess e = Some shell ->
  OPENAI_API_KEY e <> "" ->
  flags_of e = Some {| verbose := false; displayVersion := false; model := m |} /\
  positional e = w :: rest /\
  requests (fst (main e)) =
    [request (OPENAI_API_KEY e)
       (payload {| verbose := false; displayVersion := false; model := m |}
          (GOOS e) shell (" " ++ strings.Join (w :: rest) " "))].
Proof.
  intros Hargs Hw Hp Hk.
  set (f := {| verbose := false; displayVersion := false; model := m |}).
  assert (Hparse : flag.Parse init (Args e) = flag.Parsed f (w :: rest)).
  { rewrite Hargs.
    change (flag.Parse init ("-m" :: m :: w :: rest))
      with (flag.Parse (flag.set_model init m) (w :: rest)).
    now rewrite (Parse_undashed _ w rest Hw). }
  assert (Hf : flags_of e = Some f) by (unfold flags_of; now rewrite Hparse).
  assert (Hq : pseudoCommand f (Args e) = " " ++ strings.Join (w :: rest) " ").
  { rewrite Hargs. unfold pseudoCommand, f. cbn [verbose model].
    change (strings.Join ("-m" :: m :: w :: rest) " ")
      with ("-m " ++ m ++ " " ++ strings.Join (w :: rest) " ").
    rewrite <- (append_assoc_string "-m " m). apply Remove1_prefix. }
  assert (Ht : translates e f shell).
  { repeat split; try assumption; try reflexivity. rewrite Hq. discriminate. }
  split; [exact Hf |]. split; [unfold positional; now rewrite Hparse |].
  rewrite (request_follows_template e f shell Ht Hk), Hq. reflexivity.
Qed.

Lemma model_flag_sets_the_request_model_witness :
  let e := scenario_env "linux" "bash" ["-m"; "gpt-4"; "list"; "files"] "sk-test"
             (Reply scenario_reply) ("n" ++ nl) None in
  requests (fst (main e)) =
    [request "sk-test"
       (payload {| verbose := false; displayVersion := false; model := "gpt-4" |}
          "linux" "bash" " list files")].
Proof.
  intros e.
  refine (proj2 (proj2 (model_flag_sets_the_request_model e "gpt-4" "list" ["files"]
                          "bash" eq_refl eq_refl eq_refl _))).
  vm_compute. discriminate.
Defined.

(** ** Asking for help (X15) *)

(** X15: with [-h] or [-help] as the first argument, whatever follows, the
    run writes the usage text to standard error, with the platform and the
    shell name in its first line, and exits with status 0; nothing goes to
    standard output, no request is sent and no process is started. *)
Theorem help_flag_prints_usage (e : Env) (a : string) (rest : list string) (shell : string) :
  Args e = a :: rest ->
  In a ["-h"; "-help"; "--h"; "--help"] ->
  FindProcess e = Some shell ->
  main e = (usage_lines e shell, Exit 0) /\
  requests (fst (main e)) = [] /\
  spawned (fst (main e)) = [] /\
  forallb (fun ev => match ev with
                     | Printf Stderr _ _ | PrintDefaults => true
                     | _ => false
                     end) (fst (main e)) = true.
Proof.
  intros Hargs Ha Hp.
  assert (Hparse : flag.Parse init (Args e) = flag.Help).
  { rewrite Hargs. simpl in Ha.
    destruct Ha as [<- | [<- | [<- | [<- | []]]]]; reflexivity. }
  rewrite (main_help e Hparse), Hp. repeat split.
Qed.

Lemma help_flag_prints_usage_witness :
  let e := scenario_env "linux" "bash" ["--help"; "list"; "files"] "sk-test"
             (Reply scenario_reply) ("y" ++ nl) None in
  main e = (usage_lines e "bash", Exit 0).
Proof.
  intros e.
  refine (proj1 (help_flag_prints_usage e "--help" ["list"; "files"] "bash" eq_refl _ eq_refl)).
  simpl. auto.
Defined.

(** ** The usage line (X16) *)



